(** * DLStream real-time classification: process pool and triggers

    A shallow embedding of
      - [experiments/custom/dlstream_origin/classifier.py]
        (the feature-extraction/classification process pool), and
      - [experiments/custom/triggers.py]
        (the pool-backed behaviour triggers and the geometric triggers),
    together with the properties of the dispatch/collect protocol, of the
    time-window accumulator and of the trigger decisions.

    Python values are embedded as follows: [float] is IEEE binary64
    (Rocq's primitive floats), [int] is [Z], [str] is [string], a [dict]
    whose iteration order matters is an association list, [None] is the
    [None] of an option type, and a raised exception is the [Raise]
    branch of [Outcome]. *)

From Stdlib Require Import ZArith Lia.
From Stdlib Require Import Floats.PrimFloat Floats.FloatOps Floats.SpecFloat.
From Stdlib Require Import Ascii String.
From stdpp Require Import base option list list_numbers strings.

Open Scope Z_scope.

(* ===================================================================== *)
(** ** The slice of the Python runtime the sources rely on *)
(* ===================================================================== *)

Module Py.

Inductive Exception : Type :=
| KeyError (key : string)
| IndexError
| AttributeError (name : string)
| UnboundLocalError (name : string)
| ValueError
| OverflowError.

(** The result of running a method body: a returned value or a raised
    exception. *)
Inductive Outcome (A : Type) : Type :=
| Return (a : A)
| Raise (e : Exception).
Arguments Return {A} a.
Arguments Raise {A} e.

Definition bind {A B} (m : Outcome A) (k : A -> Outcome B) : Outcome B :=
  match m with
  | Return a => k a
  | Raise e => Raise e
  end.

Definition returns {A} (m : Outcome A) : bool :=
  match m with Return _ => true | Raise _ => false end.

(** [d[key]] on a dict kept in insertion order. *)
Fixpoint getitem {V} (d : list (string * V)) (key : string) : Outcome V :=
  match d with
  | [] => Raise (KeyError key)
  | (k, v) :: rest => if String.eqb k key then Return v else getitem rest key
  end.

(** [l[0]] on a sequence. *)
Definition first {A} (l : list A) : Outcome A :=
  match l with
  | [] => Raise IndexError
  | x :: _ => Return x
  end.

(** [collections.deque(maxlen=n)]: [append] pushes on the right and,
    once the bound is exceeded, discards from the left; [appendleft]
    is the mirror image. *)
Definition deque_append {A} (maxlen : nat) (d : list A) (x : A) : list A :=
  let d' := d ++ [x] in
  drop (length d' - maxlen)%nat d'.

Definition deque_appendleft {A} (maxlen : nat) (d : list A) (x : A) : list A :=
  take maxlen (x :: d).

(** [int(f)] for a float: truncation towards zero; NaN and the
    infinities have no integer value. *)
Definition py_int (f : float) : Outcome Z :=
  match Prim2SF f with
  | S754_zero _ => Return 0
  | S754_nan => Raise ValueError
  | S754_infinity _ => Raise OverflowError
  | S754_finite s m e =>
      let mag := if 0 <=? e then Z.pos m * 2 ^ e else Z.pos m / 2 ^ (- e) in
      Return (if s then - mag else mag)
  end.

(** [a >= b] on floats, as Python evaluates it. *)
Definition float_ge (a b : float) : bool := PrimFloat.leb b a.

End Py.

Import Py.

#[global] Instance Outcome_ret : MRet Outcome := @Return.
#[global] Instance Outcome_bind : MBind Outcome := fun A B k m => Py.bind m k.

(* ===================================================================== *)
(** ** classifier.py: the feature-extraction / classification pool *)
(* ===================================================================== *)

Module Classifier.

Section Pool.

(** [TW] is the type of a time window handed to a worker, [R] the type
    of what the classifier of the chosen worker kind predicts. *)
Context {TW R : Type}.

(** What the trigger hands over: [(time_window, feature_id)]. *)
Definition WorkItem : Type := TW * Z.

(** What a worker writes back: [(prediction, feature_id)]. *)
Definition Result : Type := R * Z.

(** State of the worker process of one slot.  Between taking an item
    from its input queue and completing [output_q.put] the worker holds
    the result it computed; [put] on a full [mp.Queue(1)] blocks. *)
Inductive Worker : Type :=
| Polling
| Putting (r : Result).

(** One entry of [_process_pool]: the dict built by [initiate_pool].
    Both queues are [mp.Queue(1)]: [None] is [empty()], [Some] is
    [full()]. *)
Record Process : Type := mkProcess {
  process : Worker;
  input : option WorkItem;
  output : option Result;
  running : bool;
}.

Definition set_input (v : option WorkItem) (p : Process) : Process :=
  mkProcess (process p) v (output p) (running p).
Definition set_output (v : option Result) (p : Process) : Process :=
  mkProcess (process p) (input p) v (running p).
Definition set_running (b : bool) (p : Process) : Process :=
  mkProcess (process p) (input p) (output p) b.
Definition set_process (w : Worker) (p : Process) : Process :=
  mkProcess w (input p) (output p) (running p).

Definition empty {A} (q : option A) : bool :=
  match q with None => true | Some _ => false end.
Definition full {A} (q : option A) : bool :=
  match q with None => false | Some _ => true end.

(** [initiate_pool(process_func, pool_size)]. *)
Definition initiate_pool (pool_size : nat) : list Process :=
  replicate pool_size (mkProcess Polling None None false).

(** The [for process in self._process_pool] loop of
    [pass_time_window]; returning the list with the tail untouched is
    the [break].  The [debug] argument only prints and is left out, here
    and in [get_result]. *)
Fixpoint pass_time_window_loop (pool : list Process) (skel_time_window : WorkItem)
  : list Process :=
  match pool with
  | [] => []
  | p :: rest =>
      if negb (running p) then
        if empty (input p) then
          set_running true (set_input (Some skel_time_window) p) :: rest
        else p :: pass_time_window_loop rest skel_time_window
      else if empty (input p) && full (output p) then
        set_input (Some skel_time_window) p :: rest
      else p :: pass_time_window_loop rest skel_time_window
  end.

(** The loop of [get_result], started from [result = (None, 0)].  A queue
    entry [(prediction, feature_id)] is returned as it is; a prediction is
    never [None], so it appears as [(Some prediction, feature_id)]. *)
Fixpoint get_result_loop (pool : list Process) : (option R * Z) * list Process :=
  match pool with
  | [] => ((None, 0), [])
  | p :: rest =>
      match output p with
      | Some (r, feature_id) => ((Some r, feature_id), set_output None p :: rest)
      | None =>
          let '(result, rest') := get_result_loop rest in
          (result, p :: rest')
      end
  end.

(** [FeatureExtractionClassifierProcessPool] and its subclasses
    [FeatSimbaProcessPool], [FeatBsoidProcessPool], which differ in the
    worker function only. *)
Record ProcessPool : Type := mkPool {
  _running : bool;
  _pool_size : nat;
  _process_pool : list Process;
}.

Definition __init__ (pool_size : nat) : ProcessPool :=
  mkPool false pool_size (initiate_pool pool_size).

Definition get_status (self : ProcessPool) : bool := _running self.

Definition pass_time_window (self : ProcessPool) (skel_time_window : WorkItem)
  : ProcessPool :=
  mkPool (_running self) (_pool_size self)
         (pass_time_window_loop (_process_pool self) skel_time_window).

Definition get_result (self : ProcessPool) : (option R * Z) * ProcessPool :=
  let '(result, pool) := get_result_loop (_process_pool self) in
  (result, mkPool (_running self) (_pool_size self) pool).

(** One scheduling quantum of the worker loop
    ([simba_feat_classifier_pool_run], [bsoid_feat_classifier_pool_run]):
    a polling worker takes the item of a full input queue and computes
    [(classify(extract_features(window)), feature_id)]; a worker holding
    a result completes its [put] once the output queue has room. *)
Section Worker.
Variable classify : TW -> R.

Definition pool_run (p : Process) : Process :=
  match process p with
  | Polling =>
      match input p with
      | Some (skel_time_window, feature_id) =>
          set_process (Putting (classify skel_time_window, feature_id))
                      (set_input None p)
      | None => p
      end
  | Putting r =>
      if empty (output p) then set_process Polling (set_output (Some r) p)
      else p
  end.

(** Worker [i] of the pool gets the processor. *)
Definition schedule (i : nat) (self : ProcessPool) : ProcessPool :=
  mkPool (_running self) (_pool_size self)
         (alter pool_run i (_process_pool self)).
End Worker.

(** The pool object together with the history of the arguments of
    every [pass_time_window] call made on it, oldest first.  The
    history is a ghost: no operation reads it. *)
Record Observed : Type := mkObserved {
  pool : ProcessPool;
  passed : list WorkItem;
}.

Definition call_pass_time_window (env : Observed) (item : WorkItem) : Observed :=
  mkObserved (pass_time_window (pool env) item) (passed env ++ [item]).

Definition call_get_result (env : Observed) : (option R * Z) * Observed :=
  let '(result, pool') := get_result (pool env) in
  (result, mkObserved pool' (passed env)).

(** Slot eligibility, as the two branches of [pass_time_window] test it. *)
Definition warm_up (p : Process) : bool := negb (running p) && empty (input p).
Definition steady_state (p : Process) : bool :=
  running p && empty (input p) && full (output p).
Definition accepts (p : Process) : bool := warm_up p || steady_state p.

(** The slot after it received [item]. *)
Definition fed (item : WorkItem) (p : Process) : Process :=
  mkProcess (process p) (Some item) (output p) true.

End Pool.

Arguments WorkItem : clear implicits.
Arguments Result : clear implicits.
Arguments Worker : clear implicits.
Arguments Process : clear implicits.
Arguments ProcessPool : clear implicits.
Arguments Observed : clear implicits.

End Classifier.

Import Classifier.

(* ===================================================================== *)
(** ** triggers.py: shared vocabulary *)
(* ===================================================================== *)

(** A coordinate pair and a skeleton: body-part name to coordinates. *)
Definition Point : Type := float * float.
Definition Skeleton : Type := list (string * Point).

(** Colours as the triggers write them, [(b, g, r)]. *)
Definition Color : Type := Z * Z * Z.
Definition color_of (result : bool) : Color :=
  if result then (0, 255, 0) else (0, 0, 255).

(* ===================================================================== *)
(** ** triggers.py: SimbaThresholdBehaviorPoolTrigger *)
(* ===================================================================== *)

Module SimbaThresholdBehaviorPoolTrigger.

(** The two format strings of [check_skeleton], with the float they
    are applied to. *)
Inductive Text : Type :=
| CurrentProbability (p : float)
| MotifMatched (p : float).

(** [{"plot": {"text": dict(text=..., org=..., color=...)}}]. *)
Record ResponseBody : Type := mkBody {
  text : Text;
  org : option (Z * Z);
  color : Color;
}.

(** A window is the content of the deque: one flat coordinate row per
    frame, oldest first. *)
Definition TimeWindow : Type := list (list float).

(** The instance attributes; [_process_pool] is a reference to the
    pool object, which is threaded separately as an [Observed], and
    [_skeleton], which stays [None], is left out. *)
Record Trigger : Type := mkTrigger {
  _trigger_threshold : float;
  _last_prob : float;
  _feature_id : Z;
  _center : option (Z * Z);
  _debug : bool;
  _time_window_len : nat;
  _time_window : TimeWindow;
}.

Definition set_trigger_threshold (v : float) (t : Trigger) : Trigger :=
  mkTrigger v (_last_prob t) (_feature_id t) (_center t) (_debug t)
            (_time_window_len t) (_time_window t).
Definition set_last_prob (v : float) (t : Trigger) : Trigger :=
  mkTrigger (_trigger_threshold t) v (_feature_id t) (_center t) (_debug t)
            (_time_window_len t) (_time_window t).
Definition set_feature_id (v : Z) (t : Trigger) : Trigger :=
  mkTrigger (_trigger_threshold t) (_last_prob t) v (_center t) (_debug t)
            (_time_window_len t) (_time_window t).
Definition set_center (v : option (Z * Z)) (t : Trigger) : Trigger :=
  mkTrigger (_trigger_threshold t) (_last_prob t) (_feature_id t) v (_debug t)
            (_time_window_len t) (_time_window t).
Definition set_time_window (v : TimeWindow) (t : Trigger) : Trigger :=
  mkTrigger (_trigger_threshold t) (_last_prob t) (_feature_id t) (_center t)
            (_debug t) (_time_window_len t) v.

(** [__init__]; [TIME_WINDOW] is the value read by [utils.configloader]. *)
Definition __init__ (TIME_WINDOW : nat) (prob_threshold : float) (debug : bool)
  : Trigger :=
  mkTrigger prob_threshold 0%float 0 None debug TIME_WINDOW [].

Definition key_selection : list string := ["0_tail_tip"; "1_tail_tip"]%string.

Section Accumulator.

(** [utils.poser.transform_2pose], which is not part of these
    sources: some function from a skeleton to an array of rows. *)
Variable transform_2pose : Skeleton -> list (list float).

(** The row appended for one frame. *)
Definition flat_values (skeleton : Skeleton) : list float :=
  let skeleton_selection :=
    filter (fun kv => kv.1 ∉ key_selection) skeleton in
  let flat := concat (transform_2pose skeleton_selection) in
  if (length flat <? 28)%nat
  then flat ++ replicate (28 - length flat)%nat 0%float
  else flat.

Definition fill_time_window (self : Trigger) (skeleton : Skeleton) : Trigger :=
  set_time_window
    (deque_append (_time_window_len self) (_time_window self)
                  (flat_values skeleton))
    self.

End Accumulator.

(** The block of [check_skeleton] guarded by
    [len(self._time_window) == self._time_window_len].  The argument of
    [pass_time_window] is the deque object itself, here with the content
    it has at the call.  [mp.Queue.put] only hands the object to the
    feeder thread of the queue, which serialises it later: what the
    worker receives is settled in [Session], by [Session.Pickle]. *)
Definition submit (self : Trigger) (env : Observed TimeWindow float)
  : Trigger * Observed TimeWindow float :=
  if (length (_time_window self) =? _time_window_len self)%nat then
    let self := set_feature_id (_feature_id self + 1) self in
    (self, call_pass_time_window env (_time_window self, _feature_id self))
  else (self, env).

Section WithPoser.

Variable transform_2pose : Skeleton -> list (list float).

(** [check_skeleton(skeleton, target_prob)]. *)
Definition check_skeleton (self : Trigger) (env : Observed TimeWindow float)
    (skeleton : Skeleton) (target_prob : option float)
  : (bool * ResponseBody) * Trigger * Observed TimeWindow float :=
  let self := fill_time_window transform_2pose self skeleton in
  let '(self, env) := submit self env in
  let '((result, feature_id), env) := call_get_result env in
  let self :=
    match result with
    | Some prob => set_last_prob prob self
    | None => self
    end in
  let self :=
    match target_prob with
    | Some prob => set_trigger_threshold prob self
    | None => self
    end in
  let self := set_center (Some (50, 50)) self in
  let '(result, text) :=
    if PrimFloat.leb (_trigger_threshold self) (_last_prob self)
    then (true, MotifMatched (_last_prob self))
    else (false, CurrentProbability (_last_prob self)) in
  let color := color_of result in
  ((result, mkBody text (_center self) color), self, env).

End WithPoser.

Definition get_trigger_threshold (self : Trigger) : float := _trigger_threshold self.
Definition get_last_prob (self : Trigger) : float := _last_prob self.
Definition get_time_window_len (self : Trigger) : nat := _time_window_len self.

End SimbaThresholdBehaviorPoolTrigger.

(* ===================================================================== *)
(** ** triggers.py: BsoidClassBehaviorPoolTrigger *)
(* ===================================================================== *)

Module BsoidClassBehaviorPoolTrigger.

(** A label sequence, as [classifier.predict] returns one per feature
    block; a classification result is the list of these sequences. *)
Definition Labels : Type := list Z.

Inductive Text : Type :=
| CurrentClass (last_result : Labels)
| MotifMatched (last_result : Labels).

Record ResponseBody : Type := mkBody {
  text : Text;
  org : option (Z * Z);
  color : Color;
}.

(** One transformed pose per frame, newest first. *)
Definition TimeWindow : Type := list (list (list float)).

Record Trigger : Type := mkTrigger {
  _trigger : list Z;
  _last_result : Labels;
  _feature_id : Z;
  _center : option (Z * Z);
  _debug : bool;
  _time_window_len : nat;
  _time_window : TimeWindow;
}.

Definition set_trigger (v : list Z) (t : Trigger) : Trigger :=
  mkTrigger v (_last_result t) (_feature_id t) (_center t) (_debug t)
            (_time_window_len t) (_time_window t).
Definition set_last_result (v : Labels) (t : Trigger) : Trigger :=
  mkTrigger (_trigger t) v (_feature_id t) (_center t) (_debug t)
            (_time_window_len t) (_time_window t).
Definition set_feature_id (v : Z) (t : Trigger) : Trigger :=
  mkTrigger (_trigger t) (_last_result t) v (_center t) (_debug t)
            (_time_window_len t) (_time_window t).
Definition set_center (v : option (Z * Z)) (t : Trigger) : Trigger :=
  mkTrigger (_trigger t) (_last_result t) (_feature_id t) v (_debug t)
            (_time_window_len t) (_time_window t).
Definition set_time_window (v : TimeWindow) (t : Trigger) : Trigger :=
  mkTrigger (_trigger t) (_last_result t) (_feature_id t) (_center t)
            (_debug t) (_time_window_len t) v.

(** [__init__]; [time_window_len] stands for
    [int(np.ceil(FRAMERATE / 10 * 2))]. *)
Definition __init__ (time_window_len : nat) (target_class : list Z) (debug : bool)
  : Trigger :=
  mkTrigger target_class [-1] 0 None debug time_window_len [].

(** The loop [for trigger in range(0, len(self._trigger))]: every
    iteration reads [self._last_result[0]]. *)
Fixpoint match_loop (last_result : Labels) (triggers : list Z)
    (acc : bool * Text) : Outcome (bool * Text) :=
  match triggers with
  | [] => Return acc
  | trigger :: rest =>
      label ← first last_result;
      if label =? trigger
      then match_loop last_result rest (true, MotifMatched last_result)
      else match_loop last_result rest acc
  end.

Section Accumulator.

Variable transform_2pose : Skeleton -> list (list float).

Definition fill_time_window (self : Trigger) (skeleton : Skeleton) : Trigger :=
  set_time_window
    (deque_appendleft (_time_window_len self) (_time_window self)
                      (transform_2pose skeleton))
    self.

End Accumulator.

(** The block of [check_skeleton] guarded by
    [len(self._time_window) == self._time_window_len].  As in the
    threshold trigger, the argument is the deque object, here with the
    content it has at the call. *)
Definition submit (self : Trigger) (env : Observed TimeWindow (list Labels))
  : Trigger * Observed TimeWindow (list Labels) :=
  if (length (_time_window self) =? _time_window_len self)%nat then
    let self := set_feature_id (_feature_id self + 1) self in
    (self, call_pass_time_window env (_time_window self, _feature_id self))
  else (self, env).

Section WithPoser.

Variable transform_2pose : Skeleton -> list (list float).

(** [check_skeleton(skeleton, target_class)].  The attributes and the
    pool keep the updates made before an exception is raised. *)
Definition check_skeleton (self : Trigger)
    (env : Observed TimeWindow (list Labels))
    (skeleton : Skeleton) (target_class : option (list Z))
  : Outcome (bool * ResponseBody) * Trigger
    * Observed TimeWindow (list Labels) :=
  let self := fill_time_window transform_2pose self skeleton in
  let '(self, env) := submit self env in
  let '((clf_result, feature_id), env) := call_get_result env in
  let updated : Outcome Trigger :=
    match clf_result with
    | Some labels_fslow =>
        labels ← first labels_fslow; Return (set_last_result labels self)
    | None => Return self
    end in
  match updated with
  | Raise e => (Raise e, self, env)
  | Return self =>
      let self :=
        match target_class with
        | Some target => set_trigger target self
        | None => self
        end in
      let self := set_center (Some (50, 50)) self in
      let decided :=
        match_loop (_last_result self) (_trigger self)
                   (false, CurrentClass (_last_result self)) in
      ('(result, text) ← decided;
       Return (result, mkBody text (_center self) (color_of result)),
       self, env)
  end.

End WithPoser.

Definition get_trigger_threshold (self : Trigger) : list Z := _trigger self.
Definition get_time_window_len (self : Trigger) : nat := _time_window_len self.

End BsoidClassBehaviorPoolTrigger.

(* ===================================================================== *)
(** ** triggers.py: head-direction triggers *)
(* ===================================================================== *)

(** Response bodies of the direction triggers: [{"angle": true_angle}], or
    the debug plot with a text at [org] and a circle. *)
Inductive DirectionBody : Type :=
| Angle (true_angle : float)
| PlotTextCircle (text : float) (org : Point) (center : Point) (radius : Z)
                 (color : Color).

Module HeaddirectionTrigger.

(** The attributes [__init__] assigns; the class has no other
    assignment to [self]. *)
Record Trigger : Type := mkTrigger {
  _point : Point;
  _angle : float;
  _debug : bool;
}.

Definition __init__ (angle : float) (point : Point) (debug : bool) : Trigger :=
  mkTrigger point angle debug.

(** Reading [self._end_point]: the instance has no such attribute. *)
Definition _end_point (self : Trigger) : Outcome string :=
  Raise (AttributeError "_end_point").

Section WithAnalysis.

(** [utils.analysis.angle_between_vectors], not part of these
    sources: returns a direction name and an angle. *)
Variable angle_between_vectors :
  float -> float -> float -> float -> float -> float -> string * float.

Definition check_skeleton (self : Trigger) (skeleton : Skeleton)
  : Outcome (bool * DirectionBody) :=
  neck ← getitem skeleton "neck";
  nose ← getitem skeleton "nose";
  let '(ret_head_dir, angle) :=
    angle_between_vectors neck.1 neck.2 nose.1 nose.2
                          (_point self).1 (_point self).2 in
  let true_angle := PrimFloat.abs angle in
  let result := PrimFloat.leb true_angle (_angle self) in
  let color := color_of result in
  if _debug self then
    center ← getitem skeleton "nose";
    end_point ← _end_point self;
    org ← getitem skeleton end_point;
    Return (result, PlotTextCircle true_angle org center 5 color)
  else
    Return (result, Angle true_angle).

End WithAnalysis.

End HeaddirectionTrigger.

Module EgoHeaddirectionTrigger.

Record Trigger : Type := mkTrigger {
  _head_dir : string;
  _angle : float;
  _debug : bool;
}.

Definition __init__ (angle : float) (head_dir : string) (debug : bool) : Trigger :=
  mkTrigger head_dir angle debug.

Definition _end_point (self : Trigger) : Outcome string :=
  Raise (AttributeError "_end_point").

(** Reading a local variable that may not have been assigned. *)
Definition local (name : string) (v : option bool) : Outcome bool :=
  match v with
  | Some b => Return b
  | None => Raise (UnboundLocalError name)
  end.

Section WithAnalysis.

Variable angle_between_vectors :
  float -> float -> float -> float -> float -> float -> string * float.

Definition check_skeleton (self : Trigger) (skeleton : Skeleton)
  : Outcome (bool * DirectionBody) :=
  tailroot ← getitem skeleton "tailroot";
  neck ← getitem skeleton "neck";
  nose ← getitem skeleton "nose";
  let '(ret_head_dir, angle) :=
    angle_between_vectors tailroot.1 tailroot.2 neck.1 neck.2 nose.1 nose.2 in
  let true_angle := (180 - PrimFloat.abs angle)%float in
  let result : option bool :=
    if PrimFloat.leb true_angle (_angle self) then
      if String.eqb (_head_dir self) ret_head_dir then Some true
      else if String.eqb (_head_dir self) "both" then Some true
      else None
    else Some false in
  result ← local "result" result;
  let color := color_of result in
  if _debug self then
    let center := nose in
    end_point ← _end_point self;
    org ← getitem skeleton end_point;
    Return (result, PlotTextCircle true_angle org center 5 color)
  else
    Return (result, Angle true_angle).

End WithAnalysis.

End EgoHeaddirectionTrigger.

(* ===================================================================== *)
(** ** triggers.py: RegionTrigger and OutsideTrigger *)
(* ===================================================================== *)

Module RegionTrigger.

(** The interface of the region objects of [utils.analysis]
    ([EllipseROI], [RectangleROI]) that the triggers call. *)
Record ROI : Type := mkROI {
  check_point : float -> float -> bool;
  get_center : Point;
  get_x_radius : float;
  get_box : float * float * float * float;
}.

(** [bodyparts]: one joint name, or a list of joint names. *)
Inductive Bodyparts : Type :=
| Joint (name : string)
| Joints (names : list string).

Inductive ResponseBody : Type :=
| PlotCircle (center : Point) (radius : Z) (color : Color)
| PlotSquare (pt1 pt2 : Point) (color : Color).

Record Trigger : Type := mkTrigger {
  _roi_type : string;
  _region_of_interest : ROI;
  _bodyparts : Bodyparts;
  _debug : bool;
}.

(** [str.lower] on the ASCII letters. *)
Definition lower_ascii (c : ascii) : ascii :=
  let n := nat_of_ascii c in
  if ((65 <=? n) && (n <=? 90))%nat then ascii_of_nat (n + 32) else c.
Fixpoint lower (s : string) : string :=
  match s with
  | EmptyString => EmptyString
  | String c rest => String (lower_ascii c) (lower rest)
  end.

(** The loop over a list of joints: [results] in order. *)
Fixpoint check_parts (roi : ROI) (skeleton : Skeleton) (parts : list string)
  : Outcome (list bool) :=
  match parts with
  | [] => Return []
  | part :: rest =>
      bp ← getitem skeleton part;
      results ← check_parts roi skeleton rest;
      Return (check_point roi bp.1 bp.2 :: results)
  end.

Definition any (results : list bool) : bool := existsb (fun b => b) results.

Section WithAnalysis.

(** The two region classes of [utils.analysis], as constructors
    [(center, x_radius, y_radius)]. *)
Variables EllipseROI RectangleROI : Point -> float -> float -> ROI.

Definition __init__ (region_type : string) (center : Point) (radius : float)
    (bodyparts : Bodyparts) (debug : bool) : Outcome Trigger :=
  let roi_type := lower region_type in
  region ← getitem [("circle", EllipseROI); ("square", RectangleROI)]%string
                   roi_type;
  Return (mkTrigger roi_type (region center radius radius) bodyparts debug).

End WithAnalysis.

Definition check_skeleton (self : Trigger) (skeleton : Skeleton)
  : Outcome (bool * ResponseBody) :=
  let roi := _region_of_interest self in
  result ←
    match _bodyparts self with
    | Joints parts =>
        results ← check_parts roi skeleton parts;
        Return (any results)
    | Joint part =>
        bp ← getitem skeleton part;
        Return (check_point roi bp.1 bp.2)
    end;
  let color := color_of result in
  response_body ←
    (if String.eqb (_roi_type self) "circle" then
       radius ← py_int (get_x_radius roi);
       Return (PlotCircle (get_center roi) radius color)
     else if String.eqb (_roi_type self) "square" then
       let '(x1, y1, x2, y2) := get_box roi in
       Return (PlotSquare (x1, y2) (x2, y1) color)
     else Raise (UnboundLocalError "response_body"));
  Return (result, response_body).

End RegionTrigger.

Module OutsideTrigger.

(** The subclass adds no attribute; [__init__] is the parent's. *)
Definition Trigger : Type := RegionTrigger.Trigger.

Definition __init__ := RegionTrigger.__init__.

Definition check_skeleton (self : Trigger) (skeleton : Skeleton)
  : Outcome (bool * RegionTrigger.ResponseBody) :=
  '(result, response_body) ← RegionTrigger.check_skeleton self skeleton;
  Return (negb result, response_body).

End OutsideTrigger.


(* ===================================================================== *)
(** ** A session: one trigger, its pool and the worker processes *)
(* ===================================================================== *)

Module Session.

Import SimbaThresholdBehaviorPoolTrigger.

(** What can happen next: the main loop hands the next frame to
    [check_skeleton], the operating system lets worker [i] run, or the
    feeder thread of the input queue of slot [i] serialises the item
    waiting there.  The item refers to the trigger's deque, which every
    later frame appends to, so the window written to the pipe is the
    content of the deque at that moment.  An item that a worker takes
    with no [Pickle] since it was put was serialised before the next
    frame came; nothing reads the window of a waiting item before the
    worker does, so when [Pickle i] occurs more than once for an item,
    the run is the one in which the feeder thread ran at the last of
    them.

    A frame sees an item in an input queue from the moment of its [put].
    In the code [empty()] still answers true until the feeder thread has
    written the item; [pass_time_window] can notice this only on a fed
    slot whose output queue is full, where it then waits in [put] until
    the worker has taken the item. *)
Inductive Action : Type :=
| Frame (skeleton : Skeleton) (target_prob : option float)
| Work (i : nat)
| Pickle (i : nat).

Record State : Type := mkState {
  trigger : Trigger;
  env : Observed TimeWindow float;
}.

Definition start (TIME_WINDOW pool_size : nat) (prob_threshold : float)
    (debug : bool) : State :=
  mkState (__init__ TIME_WINDOW prob_threshold debug)
          (mkObserved (Classifier.__init__ pool_size) []).

(** The item waiting in an input queue, serialised while the deque holds
    [window]: the feature id was put as a number and stays. *)
Definition pickle (window : TimeWindow) (p : Process TimeWindow float)
  : Process TimeWindow float :=
  match input p with
  | Some (_, feature_id) => set_input (Some (window, feature_id)) p
  | None => p
  end.

Definition feeder (window : TimeWindow) (i : nat)
    (self : ProcessPool TimeWindow float) : ProcessPool TimeWindow float :=
  mkPool (_running self) (_pool_size self)
         (alter (pickle window) i (_process_pool self)).

Section Run.

Variable transform_2pose : Skeleton -> list (list float).

(** Feature extraction followed by [SiMBAClassifier.classify]. *)
Variable classify : TimeWindow -> float.

Definition step (s : State) (a : Action) : State :=
  match a with
  | Frame skeleton target_prob =>
      let '(_, trigger', env') :=
        check_skeleton transform_2pose (trigger s) (env s) skeleton target_prob in
      mkState trigger' env'
  | Work i =>
      mkState (trigger s)
              (mkObserved (schedule classify i (pool (env s))) (passed (env s)))
  | Pickle i =>
      mkState (trigger s)
              (mkObserved (feeder (_time_window (trigger s)) i (pool (env s)))
                          (passed (env s)))
  end.

Definition run (s : State) (actions : list Action) : State :=
  foldl step s actions.

End Run.

(** The results currently inside the pool of a state: waiting in an output
    queue or held by a worker blocked in [put]. *)
Definition held (p : Process TimeWindow float) : list (Result float) :=
  match process p with Putting r => [r] | Polling => [] end.

Definition in_flight (p : Process TimeWindow float) : list Z :=
  (snd <$> option_list (input p)) ++ (snd <$> held p)
    ++ (snd <$> option_list (output p)).

(** Stand-ins for the collaborators when a session is run on concrete
    frames: a pose transform that lists the coordinates of each body part,
    a classifier that reads the first coordinate of the oldest frame, and
    a skeleton whose nose is at [(x, 0)]. *)
Definition rows (skeleton : Skeleton) : list (list float) :=
  (fun kv => [kv.2.1; kv.2.2]) <$> skeleton.

Definition first_coordinate (window : TimeWindow) : float :=
  match window with
  | (x :: _) :: _ => x
  | _ => 0%float
  end.

Definition nose_at (x : float) : Skeleton := [("nose"%string, (x, 0%float))].

(** Every feature id inside a slot lies between 1 and the trigger's
    counter. *)
Definition ids_within (fid : Z) (p : Process TimeWindow float) : Prop :=
  Forall (fun id => 1 <= id <= fid) (in_flight p).

(** The invariant of a session: the counter is non-negative, the windows
    passed so far carry the ids [1, 2, ..., _feature_id] in this order,
    and every id inside the pool is one of them. *)
Definition consistent (s : State) : Prop :=
  0 <= _feature_id (trigger s)
  /\ snd <$> passed (env s) = seqZ 1 (_feature_id (trigger s))
  /\ Forall (ids_within (_feature_id (trigger s)))
            (_process_pool (pool (env s))).

End Session.

(** [n] calls of [get_result] in a row. *)
Fixpoint get_results {TW R} (n : nat) (self : ProcessPool TW R)
  : list (option R * Z) * ProcessPool TW R :=
  match n with
  | O => ([], self)
  | S n' =>
      let '(result, self') := get_result self in
      let '(results, self'') := get_results n' self' in
      (result :: results, self'')
  end.

(* ===================================================================== *)
(** ** Bookkeeping over a session: what is in the pool, what came out *)
(* ===================================================================== *)

Module Ledger.

Import SimbaThresholdBehaviorPoolTrigger Session.




Section Collected.

Variable transform_2pose : Skeleton -> list (list float).
Variable classify : TimeWindow -> float.

(** The non-sentinel result that the [get_result] call of one
    [check_skeleton] call returns, if any: [check_skeleton] calls
    [get_result] on the pool as its submit block left it. *)
Definition collect_of (s : State) (a : Action) : list (Result float) :=
  match a with
  | Frame skeleton _ =>
      let submitted :=
        submit (fill_time_window transform_2pose (trigger s) skeleton) (env s) in
      match (get_result (pool submitted.2)).1 with
      | (Some prob, feature_id) => [(prob, feature_id)]
      | (None, _) => []
      end
  | Work _ | Pickle _ => []
  end.

(** All results collected along a run, oldest first. *)
Fixpoint collected (s : State) (actions : list Action) : list (Result float) :=
  match actions with
  | [] => []
  | a :: rest =>
      collect_of s a ++ collected (step transform_2pose classify s a) rest
  end.

End Collected.


(** The skeletons handed to [check_skeleton] along a run, in order. *)
Definition frames_of (actions : list Action) : list Skeleton :=
  actions ≫= fun a =>
    match a with
    | Frame skeleton _ => [skeleton]
    | Work _ | Pickle _ => []
    end.

(** Every run of [W] consecutive rows of [rows], tagged with its position
    counted from 1.  For [W = 0] the runs are empty and there is one per
    row. *)
Definition windows (W : nat) (rows : list (list float))
  : list (WorkItem TimeWindow) :=
  (fun j => (take W (drop j rows), Z.of_nat (S j)))
    <$> seq 0 (S (length rows) - max W 1).

(** The operations on a pool other than [get_result]. *)
Inductive Producer : Type :=
| Pass (item : WorkItem TimeWindow)
| Run (i : nat).

Definition produce (classify : TimeWindow -> float)
    (self : ProcessPool TimeWindow float) (op : Producer)
  : ProcessPool TimeWindow float :=
  match op with
  | Pass item => pass_time_window self item
  | Run i => schedule classify i self
  end.

End Ledger.

(* ===================================================================== *)
(** ** classifier.py: ClassifierProcess, the single-process protocol *)
(* ===================================================================== *)

Module ClassifierProcess.

Section Protocol.

(** [F] is the type of the features passed in, [R] of the prediction. *)
Context {F R : Type}.

(** The attributes; [_classification_process] is the state of the worker
    ([example_classifier_run] and its variants): [Some r] while it holds a
    prediction in a blocked [put].

    [input_written] is the part of the state of [input_queue] that the
    caller can see.  [put] takes the one place of an [mp.Queue(1)] at
    once, so that [full()] holds from then on, and leaves the object with
    the feeder thread of the queue; [empty()] looks at the pipe, and stays
    true until the feeder thread has written the object there. *)
Record ClassifierProcess : Type := mkClassifierProcess {
  input_queue : option F;
  input_written : bool;
  output_queue : option R;
  _classification_process : option R;
  _running : bool;
}.

Definition __init__ : ClassifierProcess :=
  mkClassifierProcess None false None None false.

Definition get_status (self : ClassifierProcess) : bool := _running self.

(** [self.input_queue.empty()]. *)
Definition input_empty (self : ClassifierProcess) : bool :=
  match input_queue self with
  | None => true
  | Some _ => negb (input_written self)
  end.

(** [pass_features]; the value is [None] in a state in which the call
    does not return: [put] waits for the place of the queue, which an
    item that the worker has not taken yet still holds. *)
Definition pass_features (self : ClassifierProcess) (features : F)
  : option ClassifierProcess :=
  if input_empty self then
    match input_queue self with
    | None =>
        Some (mkClassifierProcess (Some features) false (output_queue self)
                                  (_classification_process self) true)
    | Some _ => None
    end
  else Some self.

(** [get_result] returns the content of a full output queue and falls off
    the end of the method, returning [None], otherwise.  The test is
    [full()], which holds as soon as the worker's [put] has taken the
    place; [get] then waits for the object to arrive. *)
Definition get_result (self : ClassifierProcess) : option R * ClassifierProcess :=
  match output_queue self with
  | Some result =>
      (Some result,
       mkClassifierProcess (input_queue self) (input_written self) None
                           (_classification_process self) false)
  | None => (None, self)
  end.

(** One scheduling quantum of the worker loop.  The worker tests
    [full()] and then waits in [get] for the feeder thread, so it takes
    the item whether or not it has been written yet; this frees the place
    of the input queue. *)
Definition classifier_run (classify : F -> R) (self : ClassifierProcess)
  : ClassifierProcess :=
  match _classification_process self with
  | None =>
      match input_queue self with
      | Some features =>
          mkClassifierProcess None false (output_queue self)
                              (Some (classify features)) (_running self)
      | None => self
      end
  | Some last_prob =>
      if Classifier.empty (output_queue self) then
        mkClassifierProcess (input_queue self) (input_written self)
                            (Some last_prob) None (_running self)
      else self
  end.

(** The feeder thread of the input queue writes the waiting item to the
    pipe. *)
Definition feeder (self : ClassifierProcess) : ClassifierProcess :=
  match input_queue self with
  | Some _ =>
      mkClassifierProcess (input_queue self) true (output_queue self)
                          (_classification_process self) (_running self)
  | None => self
  end.

(** What a caller, the scheduler and the feeder thread can do to the
    process. *)
Inductive Event : Type :=
| PassFeatures (features : F)
| GetResult
| Quantum
| Written.

(** A call that would not return in a state is not an event of that
    state: it leaves the state as it is, and is made when the worker has
    taken the item in the way. *)
Definition handle (classify : F -> R) (self : ClassifierProcess) (e : Event)
  : ClassifierProcess :=
  match e with
  | PassFeatures features => default self (pass_features self features)
  | GetResult => (get_result self).2
  | Quantum => classifier_run classify self
  | Written => feeder self
  end.

(** Number of feature sets and predictions inside the process. *)
Definition load (self : ClassifierProcess) : nat :=
  length (option_list (input_queue self))
  + length (option_list (_classification_process self))
  + length (option_list (output_queue self)).

End Protocol.

Arguments ClassifierProcess : clear implicits.
Arguments Event : clear implicits.

End ClassifierProcess.

(* ===================================================================== *)
(** ** triggers.py: DirectionTrigger *)
(* ===================================================================== *)

Module DirectionTrigger.

(** [{"angle": true_angle}], or the debug plot with a line from the end
    point to the reference point and a text at the end point. *)
Inductive ResponseBody : Type :=
| Angle (true_angle : float)
| PlotLineText (pt1 pt2 : Point) (color : Color) (text : float) (org : Point).

Record Trigger : Type := mkTrigger {
  _angle : float;
  _debug : bool;
  _point : Point;
  _start_point : string;
  _end_point : string;
}.

(** [self._start_point, self._end_point = bodyparts] needs exactly two
    names. *)
Definition __init__ (point : Point) (angle : float) (bodyparts : list string)
    (debug : bool) : Outcome Trigger :=
  match bodyparts with
  | [start_point; end_point] =>
      Return (mkTrigger angle debug point start_point end_point)
  | _ => Raise ValueError
  end.

Section WithAnalysis.

Variable angle_between_vectors :
  float -> float -> float -> float -> float -> float -> string * float.

Definition check_skeleton (self : Trigger) (skeleton : Skeleton)
  : Outcome (bool * ResponseBody) :=
  start ← getitem skeleton (_start_point self);
  end_ ← getitem skeleton (_end_point self);
  let '(head_dir, angle) :=
    angle_between_vectors (_point self).1 (_point self).2
                          start.1 start.2 end_.1 end_.2 in
  let true_angle := (180 - PrimFloat.abs angle)%float in
  let result := PrimFloat.leb true_angle (_angle self) in
  let color := color_of result in
  if _debug self then
    pt1 ← getitem skeleton (_end_point self);
    org ← getitem skeleton (_end_point self);
    Return (result,
            PlotLineText pt1 (_point self) color true_angle org)
  else
    Return (result, Angle true_angle).

End WithAnalysis.

End DirectionTrigger.

(* ===================================================================== *)
(** ** triggers.py: HeaddirectionROITrigger *)
(* ===================================================================== *)

Module HeaddirectionROITrigger.

Inductive ResponseBody : Type :=
| Angle (true_angle : float)
| PlotTextCircle (text : float) (org : Point) (center : Point) (radius : float)
                 (color : Color).

Record Trigger : Type := mkTrigger {
  _headdirection_trigger : HeaddirectionTrigger.Trigger;
  _region_trigger : RegionTrigger.Trigger;
  _center : Point;
  _angle : float;
  _radius : float;
  _debug : bool;
}.

Section WithAnalysis.

Variable angle_between_vectors :
  float -> float -> float -> float -> float -> float -> string * float.
Variables EllipseROI RectangleROI : Point -> float -> float -> RegionTrigger.ROI.

(** The inner head-direction trigger is built without [debug]. *)
Definition __init__ (center : Point) (radius : float) (angle : float)
    (debug : bool) : Outcome Trigger :=
  let headdirection_trigger := HeaddirectionTrigger.__init__ angle center false in
  region_trigger ←
    RegionTrigger.__init__ EllipseROI RectangleROI "circle" center radius
                           (RegionTrigger.Joint "nose") false;
  Return (mkTrigger headdirection_trigger region_trigger center angle radius
                    debug).

(** [result_head is True and result_roi is False] compares by identity;
    both inner results are Python booleans, the region's for a
    [check_point] that returns one. *)
Definition check_skeleton (self : Trigger) (skeleton : Skeleton)
  : Outcome (bool * ResponseBody) :=
  neck ← getitem skeleton "neck";
  nose ← getitem skeleton "nose";
  let '(_, angle) :=
    angle_between_vectors neck.1 neck.2 nose.1 nose.2
                          (_center self).1 (_center self).2 in
  let true_angle := PrimFloat.abs angle in
  '(result_head, _) ←
    HeaddirectionTrigger.check_skeleton angle_between_vectors
      (_headdirection_trigger self) skeleton;
  '(result_roi, _) ← RegionTrigger.check_skeleton (_region_trigger self) skeleton;
  let result := result_head && negb result_roi in
  let color := color_of result in
  if _debug self then
    point ← getitem skeleton "nose";
    Return (result,
            PlotTextCircle true_angle point (_center self) (_radius self) color)
  else
    Return (result, Angle true_angle).

End WithAnalysis.

End HeaddirectionROITrigger.

(* ===================================================================== *)
(** ** triggers.py: SocialInteractionTrigger *)
(* ===================================================================== *)

Module SocialInteractionTrigger.

(** Skeletons of several animals, by animal name. *)
Definition Skeletons : Type := list (string * Skeleton).

(** [f"{interaction_type}: {result}"]. *)
Record Text : Type := mkText {
  interaction_type_shown : string;
  result_shown : bool;
}.

(** The response body: the text, and in debug mode a line between the
    first active and the first passive body part when none of their
    coordinates is NaN. *)
Record ResponseBody : Type := mkBody {
  text : Text;
  text_color : Color;
  line : option ((Z * Z) * (Z * Z));
}.

(** The attributes; [_active_animal], [_active_bp], [_passive_animal] and
    [_passive_bp] are the entries of [identification_dict]. *)
Record Trigger : Type := mkTrigger {
  _threshold : float;
  _active_animal : string;
  _active_bp : list string;
  _passive_animal : string;
  _passive_bp : list string;
  _interaction_type : string;
  _debug : bool;
}.

(** [any(np.isnan([...]))] over the four coordinates of two points. *)
Definition any_isnan (a b : Point) : bool :=
  PrimFloat.is_nan a.1 || PrimFloat.is_nan a.2
  || PrimFloat.is_nan b.1 || PrimFloat.is_nan b.2.

Section WithAnalysis.

(** [utils.analysis.calculate_distance], not part of these sources. *)
Variable calculate_distance : Point -> Point -> float.

(** The body of the inner loop for one pair of points. *)
Definition temp_result (self : Trigger) (active_coords passive_coords : Point)
  : bool :=
  if negb (any_isnan active_coords passive_coords) then
    let distance := calculate_distance active_coords passive_coords in
    if PrimFloat.leb (_threshold self) distance
       && String.eqb (_interaction_type self) "distance" then true
    else if PrimFloat.ltb distance (_threshold self)
            && String.eqb (_interaction_type self) "proximity" then true
    else false
  else false.

(** The inner loop over the passive body parts. *)
Fixpoint passive_loop (self : Trigger) (skeletons : Skeletons)
    (active_coords : Point) (passive_bps : list string) : Outcome (list bool) :=
  match passive_bps with
  | [] => Return []
  | passive_bp :: rest =>
      animal ← getitem skeletons (_passive_animal self);
      passive_coords ← getitem animal passive_bp;
      results ← passive_loop self skeletons active_coords rest;
      Return (temp_result self active_coords passive_coords :: results)
  end.

(** The outer loop over the active body parts. *)
Fixpoint active_loop (self : Trigger) (skeletons : Skeletons)
    (active_bps : list string) : Outcome (list bool) :=
  match active_bps with
  | [] => Return []
  | active_bp :: rest =>
      animal ← getitem skeletons (_active_animal self);
      active_coords ← getitem animal active_bp;
      results ← passive_loop self skeletons active_coords (_passive_bp self);
      more ← active_loop self skeletons rest;
      Return (results ++ more)
  end.

Definition check_skeleton (self : Trigger) (skeletons : Skeletons)
  : Outcome (bool * ResponseBody) :=
  results ← active_loop self skeletons (_active_bp self);
  let result := RegionTrigger.any results in
  let color := color_of result in
  let text := mkText (_interaction_type self) result in
  if _debug self then
    active_animal ← getitem skeletons (_active_animal self);
    active_bp ← first (_active_bp self);
    active_point ← getitem active_animal active_bp;
    passive_animal ← getitem skeletons (_passive_animal self);
    passive_bp ← first (_passive_bp self);
    passive_point ← getitem passive_animal passive_bp;
    if negb (any_isnan active_point passive_point) then
      ax ← py_int active_point.1;
      ay ← py_int active_point.2;
      px ← py_int passive_point.1;
      py ← py_int passive_point.2;
      Return (result, mkBody text color (Some ((ax, ay), (px, py))))
    else Return (result, mkBody text color None)
  else Return (result, mkBody text color None).

End WithAnalysis.

End SocialInteractionTrigger.

(* ===================================================================== *)
(** ** triggers.py: FreezeTrigger and SpeedTrigger *)
(* ===================================================================== *)

Module MotionTrigger.

(** The two classes have the same attributes and the same method body up
    to the comparison and the texts. *)
Inductive Kind : Type := Freeze | Speed.

Inductive Text : Type :=
| Dots
| Freezing
| NotFreezing
| Running
| NotRunning.

(** [{"plot": {"text": dict(text=..., org=..., color=...)}}]. *)
Record ResponseBody : Type := mkBody {
  text : Text;
  org : Point;
  color : Color;
}.

Record Trigger : Type := mkTrigger {
  _bodypart : string;
  _threshold : float;
  _timewindow_len : nat;
  _timewindow : list float;
  _skeleton : option Skeleton;
  _debug : bool;
}.

Definition __init__ (threshold : float) (bodypart : string)
    (timewindow_len : nat) (debug : bool) : Trigger :=
  mkTrigger bodypart threshold timewindow_len [] None debug.

(** [skeleton[list(skeleton.keys())[0]]]. *)
Definition first_value (skeleton : Skeleton) : Outcome Point :=
  kv ← first skeleton; Return kv.2.

Section WithAnalysis.

(** [utils.analysis.calculate_distance] and [numpy.sum] over the deque,
    neither part of these sources. *)
Variable calculate_distance : Point -> Point -> float.
Variable np_sum : list float -> float.

(** The decision on the distance moved. *)
Definition decide_motion (kind : Kind) (threshold joint_moved : float)
  : bool * Text :=
  match kind with
  | Freeze =>
      if PrimFloat.leb (PrimFloat.abs joint_moved) threshold
      then (true, Freezing) else (false, NotFreezing)
  | Speed =>
      if PrimFloat.leb threshold (PrimFloat.abs joint_moved)
      then (true, Running) else (false, NotRunning)
  end.

(** [check_skeleton]; the attributes are returned as the call leaves
    them, also when it raises. *)
Definition check_skeleton (kind : Kind) (self : Trigger) (skeleton : Skeleton)
  : Outcome (bool * ResponseBody) * Trigger :=
  match first_value skeleton with
  | Raise e => (Raise e, self)
  | Return org_point =>
      let joint_moved := 0%float in
      match _skeleton self with
      | None =>
          let self :=
            mkTrigger (_bodypart self) (_threshold self) (_timewindow_len self)
                      (_timewindow self) (Some skeleton) (_debug self) in
          (Return (false, mkBody Dots org_point (color_of false)), self)
      | Some previous =>
          match getitem skeleton (_bodypart self) with
          | Raise e => (Raise e, self)
          | Return here =>
              match getitem previous (_bodypart self) with
              | Raise e => (Raise e, self)
              | Return there =>
                  let joint_travel := calculate_distance here there in
                  let timewindow :=
                    deque_append (_timewindow_len self) (_timewindow self)
                                 joint_travel in
                  let joint_moved :=
                    if (length timewindow =? _timewindow_len self)%nat
                    then np_sum timewindow else joint_moved in
                  let '(result, text) :=
                    decide_motion kind (_threshold self) joint_moved in
                  let self :=
                    mkTrigger (_bodypart self) (_threshold self)
                              (_timewindow_len self) timewindow (Some skeleton)
                              (_debug self) in
                  (Return (result, mkBody text org_point (color_of result)),
                   self)
              end
          end
      end
  end.

End WithAnalysis.

End MotionTrigger.

Module FreezeTrigger.

Definition Trigger : Type := MotionTrigger.Trigger.
Definition __init__ := MotionTrigger.__init__.
Definition check_skeleton calculate_distance np_sum :=
  MotionTrigger.check_skeleton calculate_distance np_sum MotionTrigger.Freeze.

End FreezeTrigger.

Module SpeedTrigger.

Definition Trigger : Type := MotionTrigger.Trigger.
Definition __init__ := MotionTrigger.__init__.
Definition check_skeleton calculate_distance np_sum :=
  MotionTrigger.check_skeleton calculate_distance np_sum MotionTrigger.Speed.

End SpeedTrigger.

(* ===================================================================== *)
(** ** ledtrigger.py: LEDstim *)
(* ===================================================================== *)

Module LEDstim.

(** The attributes, with the serial port as the bytes written to it so
    far and the console as the lines printed so far, oldest first. *)
Record LEDstim : Type := mkLEDstim {
  ser : list string;
  on : bool;
  off : bool;
  printed : list string;
}.

Definition __init__ : LEDstim := mkLEDstim [] false true [].

Definition LEDon (self : LEDstim) : LEDstim :=
  mkLEDstim (ser self ++ ["H"%string]) true (off self) (printed self).

Definition LEDoff (self : LEDstim) : LEDstim :=
  mkLEDstim (ser self ++ ["L"%string]) false (off self) (printed self).

Definition toggle (self : LEDstim) : LEDstim :=
  if on self then
    let self := LEDoff self in
    mkLEDstim (ser self) (on self) (off self)
              (printed self ++ ["LED already on"%string])
  else LEDon self.

Inductive Call : Type := CallLEDon | CallLEDoff | CallToggle.

Definition call (self : LEDstim) (c : Call) : LEDstim :=
  match c with
  | CallLEDon => LEDon self
  | CallLEDoff => LEDoff self
  | CallToggle => toggle self
  end.

End LEDstim.

(* ===================================================================== *)
(** * Properties of the pool protocol *)
(* ===================================================================== *)

Section PoolFacts.

Context {TW R : Type}.
Implicit Types (pool : list (Process TW R)) (p q : Process TW R).
Implicit Types (item : WorkItem TW) (self : ProcessPool TW R).

Lemma accepts_head pool p item :
  accepts p = true ->
  pass_time_window_loop (p :: pool) item = fed item p :: pool.
Proof.
  unfold accepts, warm_up, steady_state, fed. destruct p as [w i o r].
  simpl. destruct r, i, o; simpl; intros H; try discriminate H; reflexivity.
Qed.

Lemma rejects_head pool p item :
  accepts p = false ->
  pass_time_window_loop (p :: pool) item = p :: pass_time_window_loop pool item.
Proof.
  unfold accepts, warm_up, steady_state. destruct p as [w i o r].
  simpl. destruct r, i, o; simpl; intros H; try discriminate H; reflexivity.
Qed.

(** The scan of [pass_time_window]: nothing changes when no slot accepts,
    otherwise exactly the first accepting slot is fed. *)
Lemma pass_time_window_loop_scan pool item :
  ((forall i p, pool !! i = Some p -> accepts p = false)
   /\ pass_time_window_loop pool item = pool)
  \/ (exists i p,
        pool !! i = Some p /\ accepts p = true
        /\ (forall j q, (j < i)%nat -> pool !! j = Some q -> accepts q = false)
        /\ pass_time_window_loop pool item = <[i := fed item p]> pool).
Proof.
  induction pool as [|p pool IH].
  - left. split; [intros i p Hi; destruct i; discriminate Hi | reflexivity].
  - destruct (accepts p) eqn:Hp.
    + right. exists 0%nat, p. split; [reflexivity|]. split; [exact Hp|].
      split; [intros j q Hj; lia|]. now apply accepts_head.
    + rewrite (rejects_head _ _ _ Hp).
      destruct IH as [[Hall Heq] | (i & q & Hi & Hq & Hbefore & Heq)].
      * left. split; [|now rewrite Heq].
        intros [|i] q Hi; simpl in Hi; [congruence | eauto].
      * right. exists (S i), q. repeat split; try assumption.
        -- intros [|j] q' Hj Hq'; simpl in Hq'; [congruence|].
           apply (Hbefore j); [lia | assumption].
        -- simpl. now rewrite Heq.
Qed.

Lemma get_result_loop_scan pool :
  ((forall i p, pool !! i = Some p -> output p = None)
   /\ get_result_loop pool = ((None, 0), pool))
  \/ (exists i p r feature_id,
        pool !! i = Some p /\ output p = Some (r, feature_id)
        /\ (forall j q, (j < i)%nat -> pool !! j = Some q -> output q = None)
        /\ get_result_loop pool
           = ((Some r, feature_id), <[i := set_output None p]> pool)).
Proof.
  induction pool as [|p pool IH].
  - left. split; [intros i p Hi; destruct i; discriminate Hi | reflexivity].
  - simpl. destruct (output p) as [[r fid]|] eqn:Hp.
    + right. exists 0%nat, p, r, fid. repeat split; try assumption.
      intros j q Hj; lia.
    + destruct IH as [[Hall Heq] | (i & q & r & fid & Hi & Hq & Hbefore & Heq)].
      * left. rewrite Heq. split; [|reflexivity].
        intros [|i] q Hi; simpl in Hi; [congruence | eauto].
      * right. rewrite Heq. exists (S i), q, r, fid. repeat split; try assumption.
        intros [|j] q' Hj Hq'; simpl in Hq'; [congruence|].
        apply (Hbefore j); [lia | assumption].
Qed.

Lemma get_result_idle self :
  (forall i p, _process_pool self !! i = Some p -> output p = None) ->
  get_result self = ((None, 0), self).
Proof.
  intros Hidle. unfold get_result.
  destruct (get_result_loop_scan (_process_pool self))
    as [[_ Heq] | (i & p & r & fid & Hi & Hp & _)].
  - rewrite Heq. now destruct self.
  - rewrite (Hidle i p Hi) in Hp. discriminate Hp.
Qed.

(** A pool whose first slots hold the items already passed and whose
    remaining slots are fresh. *)
Local Abbreviation loaded :=
  (fun it : WorkItem TW => @mkProcess TW R Polling (Some it) None true).

Lemma pass_time_window_loop_next (done : list (WorkItem TW)) pool item :
  pass_time_window_loop
    ((loaded <$> done) ++ mkProcess Polling None None false :: pool) item
  = (loaded <$> (done ++ [item])) ++ pool.
Proof.
  induction done as [|it done IH]; simpl.
  - reflexivity.
  - f_equal. exact IH.
Qed.

Lemma pass_time_window_loop_saturated (done : list (WorkItem TW)) item :
  pass_time_window_loop (loaded <$> done) item = loaded <$> done.
Proof.
  induction done as [|it done IH]; simpl; [reflexivity | f_equal; exact IH].
Qed.

Lemma foldl_pass_time_window (items done : list (WorkItem TW)) (b : bool) (n : nat) :
  foldl pass_time_window
    (mkPool b n ((loaded <$> done) ++ initiate_pool (length items))) items
  = mkPool b n (loaded <$> (done ++ items)).
Proof.
  revert done. induction items as [|item items IH]; intros done.
  - simpl. now rewrite !app_nil_r.
  - cbn [foldl length]. unfold pass_time_window at 2.
    cbn [_process_pool _running _pool_size initiate_pool replicate].
    rewrite pass_time_window_loop_next. fold (@initiate_pool TW R (length items)).
    rewrite IH. now rewrite <- app_assoc.
Qed.

End PoolFacts.

(** C1, as amended.  [pass_time_window] touches nothing but the slot list
    and feeds at most one slot: it scans the slots once, in index order,
    testing both rules on each slot, and the item goes to the first slot
    that is either not yet fed with an empty input queue (warm-up) or fed
    with an empty input queue and a full output queue (steady state); that
    slot is marked fed and every other slot is left as it was.  When no
    slot qualifies the slot list is unchanged. *)
Theorem pass_time_window_first_accepting {TW R : Type}
    (self : ProcessPool TW R) (item : WorkItem TW) :
  _running (pass_time_window self item) = _running self
  /\ _pool_size (pass_time_window self item) = _pool_size self
  /\ (((forall i p, _process_pool self !! i = Some p -> accepts p = false)
       /\ _process_pool (pass_time_window self item) = _process_pool self)
      \/ (exists i p,
            _process_pool self !! i = Some p
            /\ accepts p = true
            /\ (forall j q, (j < i)%nat ->
                  _process_pool self !! j = Some q -> accepts q = false)
            /\ input (fed item p) = Some item
            /\ running (fed item p) = true
            /\ _process_pool (pass_time_window self item)
               = <[i := fed item p]> (_process_pool self))).
Proof.
  split; [reflexivity|]. split; [reflexivity|].
  destruct (pass_time_window_loop_scan (_process_pool self) item)
    as [[Hnone Heq] | (i & p & Hi & Hp & Hbefore & Heq)].
  - left. split; assumption.
  - right. exists i, p. repeat split; assumption.
Qed.

(** C1, as stated, fails: slot 0 is fed, has consumed its input and its
    result is uncollected; slot 1 has never been fed.  The claim sends the
    item to slot 1, [pass_time_window] gives it to slot 0. *)
Lemma warm_up_priority_fails :
  ~ (forall (self : ProcessPool (list (list float)) float) item i p,
       _process_pool self !! i = Some p ->
       warm_up p = true ->
       (forall j q, (j < i)%nat ->
          _process_pool self !! j = Some q -> warm_up q = false) ->
       _process_pool (pass_time_window self item)
       = <[i := fed item p]> (_process_pool self)).
Proof.
  intros Hclaim.
  pose (slot0 := @mkProcess (list (list float)) float
                   Polling None (Some (0.5%float, 1)) true).
  pose (slot1 := @mkProcess (list (list float)) float Polling None None false).
  specialize (Hclaim (mkPool false 2 [slot0; slot1]) ([], 2) 1%nat slot1
                eq_refl eq_refl).
  assert (Hfirst : forall j q, (j < 1)%nat ->
            _process_pool (mkPool false 2 [slot0; slot1]) !! j = Some q ->
            warm_up q = false).
  { intros [|j] q Hj Hq; [|lia]. injection Hq as <-. reflexivity. }
  specialize (Hclaim Hfirst). discriminate Hclaim.
Qed.

(** C2.  Starting from a freshly built pool of [N] slots, with no worker
    step and no collection in between, [N] calls of [pass_time_window]
    fill the [N] input queues in slot order, each through the warm-up
    branch (the slot goes from not fed to fed); one more call returns the
    pool unchanged: the window is dropped without any error. *)
Theorem pass_time_window_saturation {TW R : Type}
    (items : list (WorkItem TW)) (extra : WorkItem TW) :
  let fresh := @Classifier.__init__ TW R (length items) in
  let saturated := foldl pass_time_window fresh items in
  _process_pool fresh
    = replicate (length items) (mkProcess Polling None None false)
  /\ _process_pool saturated
     = (fun item => mkProcess Polling (Some item) None true) <$> items
  /\ pass_time_window saturated extra = saturated.
Proof.
  intros fresh saturated.
  assert (Hsat : saturated
            = mkPool false (length items)
                ((fun item => mkProcess Polling (Some item) None true) <$> items)).
  { subst saturated fresh. unfold Classifier.__init__.
    exact (foldl_pass_time_window items [] false (length items)). }
  split; [reflexivity|]. split; [now rewrite Hsat|].
  rewrite Hsat. unfold pass_time_window. simpl.
  f_equal. apply pass_time_window_loop_saturated.
Qed.

(** C3.  [get_result] returns one result per call.  If some output queue
    is full, it is the content of the first full one in slot order, that
    queue is emptied and nothing else changes, so the result cannot be
    returned again.  If no output queue is full, it returns the sentinel
    [(None, 0)] and the pool is unchanged, so any number of further calls
    return the sentinel again. *)
Theorem get_result_first_full {TW R : Type} (self : ProcessPool TW R) :
  _running (get_result self).2 = _running self
  /\ _pool_size (get_result self).2 = _pool_size self
  /\ (((forall i p, _process_pool self !! i = Some p -> output p = None)
       /\ forall n, get_results n self = (replicate n (None, 0), self))
      \/ (exists i p r feature_id,
            _process_pool self !! i = Some p
            /\ output p = Some (r, feature_id)
            /\ (forall j q, (j < i)%nat ->
                  _process_pool self !! j = Some q -> output q = None)
            /\ (get_result self).1 = (Some r, feature_id)
            /\ _process_pool (get_result self).2
               = <[i := set_output None p]> (_process_pool self)
            /\ _process_pool (get_result self).2 !! i
               = Some (set_output None p)
            /\ output (set_output None p) = None)).
Proof.
  unfold get_result.
  destruct (get_result_loop_scan (_process_pool self))
    as [[Hidle Heq] | (i & p & r & fid & Hi & Hp & Hbefore & Heq)].
  - rewrite Heq. simpl. split; [reflexivity|]. split; [reflexivity|].
    left. split; [exact Hidle|].
    induction n as [|n IH]; simpl; [reflexivity|].
    now rewrite (get_result_idle self Hidle), IH.
  - rewrite Heq. simpl. split; [reflexivity|]. split; [reflexivity|].
    right. exists i, p, r, fid. repeat split; try assumption.
    apply list_lookup_insert_eq. now apply lookup_lt_Some in Hi.
Qed.

(* ===================================================================== *)
(** * Properties of the threshold trigger *)
(* ===================================================================== *)

Section SimbaFacts.

Import SimbaThresholdBehaviorPoolTrigger.

Variable transform_2pose : Skeleton -> list (list float).

Implicit Types (self : Trigger) (env : Observed TimeWindow float).

(** [check_skeleton] unfolded along its intermediate states: the trigger
    and pool after the submit block, what [get_result] then returns, and
    the attributes and response computed from these. *)
Lemma check_skeleton_unfold self env skeleton target_prob :
  let filled := fill_time_window transform_2pose self skeleton in
  let submitted := submit filled env in
  let collected := call_get_result submitted.2 in
  let last_prob :=
    match collected.1.1 with
    | Some prob => prob
    | None => _last_prob self
    end in
  let threshold :=
    match target_prob with
    | Some prob => prob
    | None => _trigger_threshold self
    end in
  let result := PrimFloat.leb threshold last_prob in
  check_skeleton transform_2pose self env skeleton target_prob
  = ((result,
      mkBody (if result then MotifMatched last_prob
              else CurrentProbability last_prob)
             (Some (50, 50)) (color_of result)),
     mkTrigger threshold last_prob (_feature_id submitted.1) (Some (50, 50))
               (_debug self) (_time_window_len self) (_time_window submitted.1),
     collected.2).
Proof.
  unfold check_skeleton. cbv zeta.
  destruct (submit (fill_time_window transform_2pose self skeleton) env)
    as [self1 env1] eqn:Hsub.
  assert (Hframe : _trigger_threshold self1 = _trigger_threshold self
                   /\ _last_prob self1 = _last_prob self
                   /\ _debug self1 = _debug self
                   /\ _time_window_len self1 = _time_window_len self).
  { unfold submit in Hsub.
    destruct (length _ =? _)%nat; injection Hsub as <- <-; repeat split. }
  destruct Hframe as (Hthr & Hprob & Hdbg & Hlen). clear Hsub.
  destruct self1 as [thr1 prob1 fid1 center1 debug1 len1 window1].
  simpl in Hthr, Hprob, Hdbg, Hlen. subst thr1 prob1 debug1 len1.
  simpl. destruct (call_get_result env1) as [[result feature_id] env2].
  simpl. destruct result as [prob|], target_prob as [target|]; simpl;
    match goal with |- context [PrimFloat.leb ?a ?b] =>
      destruct (PrimFloat.leb a b) end; reflexivity.
Qed.

End SimbaFacts.

(** C6.  The boolean returned by the threshold trigger is
    [cached >= threshold].  Here [cached] is the cached probability as
    this call leaves it: the probability that the call's own [get_result]
    returned, or, when that returned the sentinel, the probability cached
    before the call; and [threshold] is the per-call [target_prob] when
    one is supplied and the configured threshold otherwise.  Both are
    stored, so a later call without a [target_prob] compares what it
    collects, or else this cached probability, against the same
    threshold. *)
Theorem check_skeleton_threshold_decision
    (transform_2pose : Skeleton -> list (list float))
    (self : SimbaThresholdBehaviorPoolTrigger.Trigger)
    (env : Observed SimbaThresholdBehaviorPoolTrigger.TimeWindow float)
    (skeleton : Skeleton) (target_prob : option float) :
  let submitted :=
    SimbaThresholdBehaviorPoolTrigger.submit
      (SimbaThresholdBehaviorPoolTrigger.fill_time_window
         transform_2pose self skeleton) env in
  let cached :=
    match (get_result (pool submitted.2)).1.1 with
    | Some prob => prob
    | None => SimbaThresholdBehaviorPoolTrigger._last_prob self
    end in
  let call :=
    SimbaThresholdBehaviorPoolTrigger.check_skeleton
      transform_2pose self env skeleton target_prob in
  let self' := call.1.2 in
  let threshold :=
    match target_prob with
    | Some prob => prob
    | None => SimbaThresholdBehaviorPoolTrigger._trigger_threshold self
    end in
  call.1.1.1 = float_ge cached threshold
  /\ SimbaThresholdBehaviorPoolTrigger._last_prob self' = cached
  /\ call.1.1.1
     = float_ge (SimbaThresholdBehaviorPoolTrigger._last_prob self') threshold
  /\ SimbaThresholdBehaviorPoolTrigger._trigger_threshold self' = threshold
  /\ forall env2 skeleton2,
       let submitted2 :=
         SimbaThresholdBehaviorPoolTrigger.submit
           (SimbaThresholdBehaviorPoolTrigger.fill_time_window
              transform_2pose self' skeleton2) env2 in
       let cached2 :=
         match (get_result (pool submitted2.2)).1.1 with
         | Some prob => prob
         | None => cached
         end in
       let call2 :=
         SimbaThresholdBehaviorPoolTrigger.check_skeleton
           transform_2pose self' env2 skeleton2 None in
       call2.1.1.1 = float_ge cached2 threshold
       /\ SimbaThresholdBehaviorPoolTrigger._last_prob call2.1.2 = cached2
       /\ call2.1.1.1
          = float_ge (SimbaThresholdBehaviorPoolTrigger._last_prob call2.1.2)
                     threshold.
Proof.
  intros submitted cached call self' threshold. subst self' call.
  rewrite check_skeleton_unfold. cbn [fst snd].
  fold submitted. unfold call_get_result.
  assert (Hcached :
    match (let '(result, pool') := get_result (pool submitted.2) in
           (result, mkObserved pool' (passed submitted.2))).1.1 with
    | Some prob => prob
    | None => SimbaThresholdBehaviorPoolTrigger._last_prob self
    end = cached).
  { subst cached. now destruct (get_result (pool submitted.2)) as [[r id] pool']. }
  rewrite Hcached.
  split; [reflexivity|]. split; [reflexivity|]. split; [reflexivity|].
  split; [reflexivity|].
  intros env2 skeleton2. cbv zeta. rewrite check_skeleton_unfold.
  cbn [fst snd SimbaThresholdBehaviorPoolTrigger._last_prob
       SimbaThresholdBehaviorPoolTrigger._trigger_threshold].
  unfold call_get_result.
  match goal with
  | |- context [get_result
                  (pool (SimbaThresholdBehaviorPoolTrigger.submit ?t env2).2)] =>
      destruct (get_result
                  (pool (SimbaThresholdBehaviorPoolTrigger.submit t env2).2))
        as [[r id] pool']
  end.
  cbn [fst snd]. repeat split.
Qed.

(** C4, as amended.  On each frame [check_skeleton] first feeds the
    accumulator (which may pass a window), then calls [get_result] on the
    pool as the accumulator left it.  A non-sentinel result overwrites the
    cached probability whatever feature id came with it; the sentinel
    leaves the cache as it was; the decision is taken on the cache so
    updated.  The returned feature id is stored nowhere: the only id
    attribute, [_feature_id], is the dispatch counter as the submit block
    left it. *)
Theorem check_skeleton_overwrites_cache
    (transform_2pose : Skeleton -> list (list float))
    (self : SimbaThresholdBehaviorPoolTrigger.Trigger)
    (env : Observed SimbaThresholdBehaviorPoolTrigger.TimeWindow float)
    (skeleton : Skeleton) (target_prob : option float) :
  let submitted :=
    SimbaThresholdBehaviorPoolTrigger.submit
      (SimbaThresholdBehaviorPoolTrigger.fill_time_window
         transform_2pose self skeleton) env in
  let collected := get_result (pool submitted.2) in
  let call :=
    SimbaThresholdBehaviorPoolTrigger.check_skeleton
      transform_2pose self env skeleton target_prob in
  let self' := call.1.2 in
  pool call.2 = collected.2
  /\ SimbaThresholdBehaviorPoolTrigger._last_prob self'
     = match collected.1.1 with
       | Some prob => prob
       | None => SimbaThresholdBehaviorPoolTrigger._last_prob self
       end
  /\ SimbaThresholdBehaviorPoolTrigger._feature_id self'
     = SimbaThresholdBehaviorPoolTrigger._feature_id submitted.1
  /\ call.1.1.1
     = float_ge (SimbaThresholdBehaviorPoolTrigger._last_prob self')
                (SimbaThresholdBehaviorPoolTrigger._trigger_threshold self').
Proof.
  intros submitted collected call self'. subst self' call.
  rewrite check_skeleton_unfold. cbn [fst snd].
  fold submitted. subst collected. unfold call_get_result.
  destruct (get_result (pool submitted.2)) as [[result feature_id] pool'].
  repeat split.
Qed.

(** C4, as stated, fails: the trigger keeps no record of the feature id
    that came with a collected result.  Whatever reading [last_id] of the
    trigger's attributes one proposes, it cannot equal the returned id
    after every collecting call: two pools that differ only in the id
    attached to the waiting result leave the trigger in the same state. *)
Lemma check_skeleton_keeps_no_last_id :
  ~ (exists last_id : SimbaThresholdBehaviorPoolTrigger.Trigger -> Z,
       forall transform_2pose self env skeleton target_prob prob feature_id,
         (get_result
            (pool (SimbaThresholdBehaviorPoolTrigger.submit
                     (SimbaThresholdBehaviorPoolTrigger.fill_time_window
                        transform_2pose self skeleton) env).2)).1
         = (Some prob, feature_id) ->
         last_id (SimbaThresholdBehaviorPoolTrigger.check_skeleton
                    transform_2pose self env skeleton target_prob).1.2
         = feature_id).
Proof.
  intros [last_id Hclaim].
  pose (self := SimbaThresholdBehaviorPoolTrigger.__init__ 3 0.5%float false).
  pose (waiting := fun feature_id : Z =>
          mkObserved
            (mkPool false 1
               [@mkProcess SimbaThresholdBehaviorPoolTrigger.TimeWindow float
                  Polling None (Some (0.75%float, feature_id)) true])
            []).
  pose proof (Hclaim (fun _ => []) self (waiting 1) [] None 0.75%float 1 eq_refl)
    as H1.
  pose proof (Hclaim (fun _ => []) self (waiting 2) [] None 0.75%float 2 eq_refl)
    as H2.
  assert (Hsame :
    (SimbaThresholdBehaviorPoolTrigger.check_skeleton
       (fun _ => []) self (waiting 1) [] None).1.2
    = (SimbaThresholdBehaviorPoolTrigger.check_skeleton
         (fun _ => []) self (waiting 2) [] None).1.2) by reflexivity.
  rewrite Hsame, H2 in H1. discriminate H1.
Qed.

(* ===================================================================== *)
(** * Properties of a session *)
(* ===================================================================== *)

Section SessionFacts.

Import SimbaThresholdBehaviorPoolTrigger Session.

Variable transform_2pose : Skeleton -> list (list float).
Variable classify : TimeWindow -> float.

Implicit Types (s : State) (self : Trigger) (env : Observed TimeWindow float).

Lemma run_work s (workers : list nat) :
  trigger (run transform_2pose classify s (Work <$> workers)) = trigger s
  /\ passed (env (run transform_2pose classify s (Work <$> workers)))
     = passed (env s).
Proof.
  revert s. induction workers as [|i workers IH]; intros s; [now split|].
  destruct (IH (step transform_2pose classify s (Work i))) as [Htrigger Hpassed].
  split; [exact Htrigger | exact Hpassed].
Qed.

Lemma call_get_result_passed env :
  passed (call_get_result env).2 = passed env.
Proof.
  unfold call_get_result. now destruct (get_result (pool env)) as [result pool'].
Qed.

(** What one frame does to the accumulator and to the history of passed
    windows; the pool has no influence on either. *)
Lemma step_frame s skeleton target_prob :
  let s' := step transform_2pose classify s (Frame skeleton target_prob) in
  let window :=
    deque_append (_time_window_len (trigger s)) (_time_window (trigger s))
                 (flat_values transform_2pose skeleton) in
  let ready := (length window =? _time_window_len (trigger s))%nat in
  let feature_id :=
    if ready then _feature_id (trigger s) + 1 else _feature_id (trigger s) in
  _time_window_len (trigger s') = _time_window_len (trigger s)
  /\ _time_window (trigger s') = window
  /\ _feature_id (trigger s') = feature_id
  /\ passed (env s')
     = passed (env s) ++ (if ready then [(window, feature_id)] else []).
Proof.
  intros s' window ready feature_id. subst s'. unfold step.
  rewrite check_skeleton_unfold. cbn [trigger env _time_window_len
    _time_window _feature_id]. rewrite call_get_result_passed.
  unfold submit, fill_time_window.
  cbn [set_time_window _time_window _time_window_len _feature_id].
  fold window. fold ready. subst feature_id.
  destruct ready; cbn; rewrite ?app_nil_r; repeat split.
Qed.

(** The same for a frame that arrives after any number of worker steps. *)
Lemma feed_frame s (workers : list nat) skeleton target_prob
    (len : nat) (window : TimeWindow) (fid : Z) (hist : list (WorkItem TimeWindow)) :
  _time_window_len (trigger s) = len ->
  _time_window (trigger s) = window ->
  _feature_id (trigger s) = fid ->
  passed (env s) = hist ->
  let s' :=
    step transform_2pose classify
         (run transform_2pose classify s (Work <$> workers))
         (Frame skeleton target_prob) in
  let window' := deque_append len window (flat_values transform_2pose skeleton) in
  let ready := (length window' =? len)%nat in
  _time_window_len (trigger s') = len
  /\ _time_window (trigger s') = window'
  /\ _feature_id (trigger s') = (if ready then fid + 1 else fid)
  /\ passed (env s')
     = hist ++ (if ready then [(window', fid + 1)] else []).
Proof.
  intros <- <- <- <-. cbv zeta.
  pose proof (step_frame (run transform_2pose classify s (Work <$> workers))
                skeleton target_prob) as H. cbv zeta in H.
  destruct (run_work s workers) as [Htrigger Hpassed].
  rewrite Htrigger, Hpassed in H.
  destruct H as (Hlen & Hwindow & Hfid & Hhist).
  repeat split; try assumption.
  rewrite Hhist. now destruct (_ =? _)%nat.
Qed.

End SessionFacts.

(** C5.  A trigger with window length 3 is fed five frames, with any
    worker activity in between and any pool size.  The history of
    windows passed to the pool is empty after the first and after the
    second frame, and grows by exactly one entry at each of the third,
    fourth and fifth frame: the three most recent transformed frames,
    oldest first, tagged 1, 2 and 3.  The feature id is 0 until the third
    frame and then advances by one per passed window. *)
Theorem accumulator_three_of_five
    (transform_2pose : Skeleton -> list (list float))
    (classify : SimbaThresholdBehaviorPoolTrigger.TimeWindow -> float)
    (pool_size : nat) (prob_threshold : float) (debug : bool)
    (F1 F2 F3 F4 F5 : Skeleton) (t1 t2 t3 t4 t5 : option float)
    (w0 w1 w2 w3 w4 : list nat) :
  let feed := fun s workers skeleton target_prob =>
    Session.step transform_2pose classify
      (Session.run transform_2pose classify s (Session.Work <$> workers))
      (Session.Frame skeleton target_prob) in
  let s0 := Session.start 3 pool_size prob_threshold debug in
  let s1 := feed s0 w0 F1 t1 in
  let s2 := feed s1 w1 F2 t2 in
  let s3 := feed s2 w2 F3 t3 in
  let s4 := feed s3 w3 F4 t4 in
  let s5 := feed s4 w4 F5 t5 in
  let f := SimbaThresholdBehaviorPoolTrigger.flat_values transform_2pose in
  let fid := fun s =>
    SimbaThresholdBehaviorPoolTrigger._feature_id (Session.trigger s) in
  let passed := fun s => passed (Session.env s) in
  (passed s1 = [] /\ fid s1 = 0)
  /\ (passed s2 = [] /\ fid s2 = 0)
  /\ (passed s3 = [([f F1; f F2; f F3], 1)] /\ fid s3 = 1)
  /\ (passed s4 = [([f F1; f F2; f F3], 1); ([f F2; f F3; f F4], 2)]
      /\ fid s4 = 2)
  /\ (passed s5 = [([f F1; f F2; f F3], 1); ([f F2; f F3; f F4], 2);
                   ([f F3; f F4; f F5], 3)]
      /\ fid s5 = 3).
Proof.
  intros feed s0 s1 s2 s3 s4 s5 f fid passed.
  destruct (feed_frame transform_2pose classify s0 w0 F1 t1 3 [] 0 []
              eq_refl eq_refl eq_refl eq_refl) as (L1 & W1 & I1 & P1).
  destruct (feed_frame transform_2pose classify s1 w1 F2 t2 _ _ _ _
              L1 W1 I1 P1) as (L2 & W2 & I2 & P2).
  destruct (feed_frame transform_2pose classify s2 w2 F3 t3 _ _ _ _
              L2 W2 I2 P2) as (L3 & W3 & I3 & P3).
  destruct (feed_frame transform_2pose classify s3 w3 F4 t4 _ _ _ _
              L3 W3 I3 P3) as (L4 & W4 & I4 & P4).
  destruct (feed_frame transform_2pose classify s4 w4 F5 t5 _ _ _ _
              L4 W4 I4 P4) as (L5 & W5 & I5 & P5).
  repeat split; [exact P1 | exact I1 | exact P2 | exact I2 | exact P3
                | exact I3 | exact P4 | exact I4 | exact P5 | exact I5].
Qed.

Section SessionInvariant.

Import SimbaThresholdBehaviorPoolTrigger Session.

Variable transform_2pose : Skeleton -> list (list float).
Variable classify : TimeWindow -> float.

Implicit Types (s : State) (p : Process TimeWindow float).
Implicit Types (pool : list (Process TimeWindow float)).

Local Ltac split_ids :=
  unfold ids_within, in_flight, held in *; cbn in *;
  rewrite ?Forall_cons, ?Forall_nil in *.

Lemma ids_within_mono fid fid' p :
  fid <= fid' -> ids_within fid p -> ids_within fid' p.
Proof.
  unfold ids_within. intros Hle H.
  eapply Forall_impl; [exact H|]. cbn. intros id Hid. lia.
Qed.

Lemma ids_within_fed fid item p :
  1 <= item.2 <= fid -> ids_within fid p -> ids_within fid (fed item p).
Proof.
  destruct p as [[|[r rid]] [[w wid]|] [[o oid]|] b], item as [tw id];
    intros Hid H; split_ids; intuition lia.
Qed.

Lemma ids_within_drained fid p :
  ids_within fid p -> ids_within fid (set_output None p).
Proof.
  destruct p as [[|[r rid]] [[w wid]|] [[o oid]|] b];
    intros H; split_ids; intuition lia.
Qed.

Lemma ids_within_pool_run fid p :
  ids_within fid p -> ids_within fid (pool_run classify p).
Proof.
  destruct p as [[|[r rid]] [[w wid]|] [[o oid]|] b];
    intros H; split_ids; intuition lia.
Qed.

Lemma ids_within_pickle fid window p :
  ids_within fid p -> ids_within fid (pickle window p).
Proof.
  destruct p as [[|[r rid]] [[w wid]|] [[o oid]|] b];
    intros H; split_ids; intuition lia.
Qed.

Lemma pass_time_window_ids fid pool item :
  1 <= item.2 <= fid ->
  Forall (ids_within fid) pool ->
  Forall (ids_within fid) (pass_time_window_loop pool item).
Proof.
  intros Hid Hpool.
  destruct (pass_time_window_loop_scan pool item)
    as [[_ ->] | (i & p & Hi & _ & _ & ->)]; [exact Hpool|].
  apply Forall_insert; [exact Hpool|].
  apply ids_within_fed; [exact Hid|]. eapply Forall_lookup_1; eassumption.
Qed.

Lemma get_result_ids fid pool :
  Forall (ids_within fid) pool ->
  Forall (ids_within fid) (get_result_loop pool).2.
Proof.
  intros Hpool.
  destruct (get_result_loop_scan pool)
    as [[_ ->] | (i & p & r & id & Hi & _ & _ & ->)]; [exact Hpool|].
  apply Forall_insert; [exact Hpool|].
  apply ids_within_drained. eapply Forall_lookup_1; eassumption.
Qed.

Lemma consistent_start TIME_WINDOW pool_size prob_threshold debug :
  consistent (start TIME_WINDOW pool_size prob_threshold debug).
Proof.
  unfold consistent, start. cbn. split; [lia|]. split; [reflexivity|].
  unfold initiate_pool. apply Forall_replicate. constructor.
Qed.

Lemma consistent_step s a :
  consistent s -> consistent (step transform_2pose classify s a).
Proof.
  intros (Hfid & Hpassed & Hpool). destruct a as [skeleton target_prob | i | i].
  - unfold consistent, step. rewrite check_skeleton_unfold.
    cbn [trigger env _feature_id]. rewrite call_get_result_passed.
    unfold call_get_result, get_result.
    destruct (get_result_loop _) as [result pool'] eqn:Hcollect.
    cbn [snd pool _process_pool].
    assert (Hpool' : pool' = (get_result_loop
              (_process_pool (Classifier.pool
                 (submit (fill_time_window transform_2pose (trigger s) skeleton)
                         (env s)).2))).2) by now rewrite Hcollect.
    rewrite Hpool'. clear Hcollect Hpool' result pool'.
    unfold submit, fill_time_window.
    cbn [set_time_window _time_window _time_window_len _feature_id].
    destruct (_ =? _)%nat.
    + cbn [fst snd set_feature_id _feature_id _time_window call_pass_time_window
           passed pool pass_time_window _process_pool].
      split; [lia|]. split.
      * rewrite fmap_app, Hpassed. cbn [fmap list_fmap snd].
        rewrite (seqZ_app 1 (_feature_id (trigger s)) 1) by lia.
        f_equal. unfold seqZ. change (Z.to_nat 1) with 1%nat. cbn. f_equal. lia.
      * apply get_result_ids, pass_time_window_ids; [cbn; lia|].
        eapply Forall_impl; [exact Hpool|]. cbn. intros p.
        apply ids_within_mono. lia.
    + cbn [fst snd _feature_id]. split; [exact Hfid|]. split; [exact Hpassed|].
      now apply get_result_ids.
  - unfold consistent, step, schedule.
    cbn [trigger env passed pool _process_pool].
    split; [exact Hfid|]. split; [exact Hpassed|].
    apply Forall_alter; [exact Hpool|]. intros p _. apply ids_within_pool_run.
  - unfold consistent, step, feeder.
    cbn [trigger env passed pool _process_pool].
    split; [exact Hfid|]. split; [exact Hpassed|].
    apply Forall_alter; [exact Hpool|]. intros p _. apply ids_within_pickle.
Qed.

Lemma consistent_run s actions :
  consistent s -> consistent (run transform_2pose classify s actions).
Proof.
  revert s. induction actions as [|a actions IH]; intros s Hs; [exact Hs|].
  apply (IH (step transform_2pose classify s a)). now apply consistent_step.
Qed.

End SessionInvariant.

(** C8.  In every state a session can reach from a freshly constructed
    trigger and pool, through any interleaving of frames and worker
    steps: the counter started at 0 and is non-negative; the windows
    passed to the pool so far carry exactly the ids 1, 2, ...,
    [_feature_id], in this order, so they are at least 1 and strictly
    increasing; every id waiting in an input queue, held by a worker or
    waiting in an output queue is one of these; and [get_result] returns
    either the sentinel [(None, 0)] or a prediction with an id of at
    least 1.  The sentinel's id 0 is never the id of a passed window. *)
Theorem feature_id_never_sentinel
    (transform_2pose : Skeleton -> list (list float))
    (classify : SimbaThresholdBehaviorPoolTrigger.TimeWindow -> float)
    (TIME_WINDOW pool_size : nat) (prob_threshold : float) (debug : bool)
    (actions : list Session.Action) :
  let s0 := Session.start TIME_WINDOW pool_size prob_threshold debug in
  let s := Session.run transform_2pose classify s0 actions in
  let fid := SimbaThresholdBehaviorPoolTrigger._feature_id (Session.trigger s) in
  SimbaThresholdBehaviorPoolTrigger._feature_id (Session.trigger s0) = 0
  /\ 0 <= fid
  /\ snd <$> passed (Session.env s) = seqZ 1 fid
  /\ (forall item, item ∈ passed (Session.env s) -> 1 <= item.2 <= fid)
  /\ (0 ∉ snd <$> passed (Session.env s))
  /\ (forall i p id,
        _process_pool (pool (Session.env s)) !! i = Some p ->
        id ∈ Session.in_flight p -> 1 <= id <= fid)
  /\ ((get_result (pool (Session.env s))).1 = (None, 0)
      \/ exists prob feature_id,
           (get_result (pool (Session.env s))).1 = (Some prob, feature_id)
           /\ 1 <= feature_id <= fid).
Proof.
  intros s0 s fid.
  destruct (consistent_run transform_2pose classify s0 actions
              (consistent_start _ _ _ _)) as (Hfid & Hpassed & Hpool).
  fold s in Hfid, Hpassed, Hpool. fold fid in Hfid, Hpassed, Hpool.
  assert (Hitems : forall id, id ∈ (snd <$> passed (Session.env s)) ->
                     1 <= id <= fid).
  { intros id. rewrite Hpassed, elem_of_seqZ. lia. }
  assert (Hslots : forall i p id,
            _process_pool (pool (Session.env s)) !! i = Some p ->
            id ∈ Session.in_flight p -> 1 <= id <= fid).
  { intros i p id Hi Hid.
    pose proof (Forall_lookup_1 _ _ _ _ Hpool Hi) as Hp.
    unfold Session.ids_within in Hp. rewrite Forall_forall in Hp. now apply Hp. }
  split; [reflexivity|]. split; [exact Hfid|]. split; [exact Hpassed|].
  split; [|split; [|split; [exact Hslots|]]].
  - intros item Hitem. apply Hitems. apply list_elem_of_fmap. now exists item.
  - intros H0. apply Hitems in H0. lia.
  - unfold get_result.
    destruct (get_result_loop_scan (_process_pool (pool (Session.env s))))
      as [[_ ->] | (i & p & prob & id & Hi & Hp & _ & ->)]; [now left|].
    right. exists prob, id. split; [reflexivity|].
    apply (Hslots i p id Hi). unfold Session.in_flight. rewrite Hp.
    rewrite !elem_of_app. right. right. cbn. apply list_elem_of_here.
Qed.

(* ===================================================================== *)
(** * Properties of the label trigger *)
(* ===================================================================== *)

Section BsoidFacts.

Import BsoidClassBehaviorPoolTrigger.

(** The matching loop returns as soon as the cached result has a first
    label, and then decides membership of that label in the target list. *)
Lemma match_loop_member (label : Z) (rest : Labels) (triggers : list Z)
    (acc : bool * Text) :
  match_loop (label :: rest) triggers acc
  = Return (if bool_decide (label ∈ triggers)
            then (true, MotifMatched (label :: rest)) else acc).
Proof.
  revert acc. induction triggers as [|trigger triggers IH]; intros acc.
  - reflexivity.
  - cbn [match_loop first]. change (mbind ?f (Return ?x)) with (f x). cbv beta.
    destruct (Z.eqb_spec label trigger) as [->|Hne].
    + rewrite IH. rewrite (bool_decide_eq_true_2 (trigger ∈ trigger :: triggers))
        by apply list_elem_of_here.
      now destruct (bool_decide _).
    + rewrite IH. destruct (bool_decide (label ∈ triggers)) eqn:Hin.
      * apply bool_decide_eq_true_1 in Hin.
        rewrite bool_decide_eq_true_2; [reflexivity|]. now apply list_elem_of_further.
      * apply bool_decide_eq_false_1 in Hin.
        rewrite bool_decide_eq_false_2; [reflexivity|].
        intros [Heq|Hin']%elem_of_cons; [now apply Hne | now apply Hin].
Qed.

End BsoidFacts.

(** C7.  Take any call of the label trigger after which the cached result
    has a first label: the collection either returned the sentinel and the
    old cache starts with [label], or returned a result whose first label
    sequence starts with [label].  Then the call returns, the per-call
    [target_class] (when supplied) has replaced the target list, and the
    returned boolean is true exactly when [label] is a member of the
    target list in force. *)
Theorem check_skeleton_label_decision
    (transform_2pose : Skeleton -> list (list float))
    (self : BsoidClassBehaviorPoolTrigger.Trigger)
    (env : Observed BsoidClassBehaviorPoolTrigger.TimeWindow
                    (list BsoidClassBehaviorPoolTrigger.Labels))
    (skeleton : Skeleton) (target_class : option (list Z))
    (label : Z) (rest : BsoidClassBehaviorPoolTrigger.Labels) :
  let submitted :=
    BsoidClassBehaviorPoolTrigger.submit
      (BsoidClassBehaviorPoolTrigger.fill_time_window
         transform_2pose self skeleton) env in
  let cached : Outcome BsoidClassBehaviorPoolTrigger.Labels :=
    match (get_result (pool submitted.2)).1.1 with
    | Some labels_fslow => first labels_fslow
    | None => Return (BsoidClassBehaviorPoolTrigger._last_result self)
    end in
  let targets :=
    match target_class with
    | Some target => target
    | None => BsoidClassBehaviorPoolTrigger._trigger self
    end in
  let call :=
    BsoidClassBehaviorPoolTrigger.check_skeleton
      transform_2pose self env skeleton target_class in
  cached = Return (label :: rest) ->
  BsoidClassBehaviorPoolTrigger._last_result call.1.2 = label :: rest
  /\ BsoidClassBehaviorPoolTrigger._trigger call.1.2 = targets
  /\ exists decision body,
       call.1.1 = Return (decision, body)
       /\ (decision = true <-> label ∈ targets).
Proof.
  intros submitted cached targets call Hcached. subst call.
  unfold BsoidClassBehaviorPoolTrigger.check_skeleton.
  fold submitted. destruct submitted as [self1 env1] eqn:Hsub.
  assert (Hframe : BsoidClassBehaviorPoolTrigger._trigger self1
                   = BsoidClassBehaviorPoolTrigger._trigger self
                   /\ BsoidClassBehaviorPoolTrigger._last_result self1
                      = BsoidClassBehaviorPoolTrigger._last_result self).
  { subst submitted. unfold BsoidClassBehaviorPoolTrigger.submit in Hsub.
    destruct (length _ =? _)%nat; injection Hsub as <- <-; now split. }
  destruct Hframe as [Htrigger Hlast].
  subst cached. cbn [snd] in Hcached. unfold call_get_result.
  destruct (get_result (pool env1)) as [[clf_result feature_id] pool'].
  cbn [fst snd] in Hcached |- *.
  assert (Hupdated :
    match clf_result with
    | Some labels_fslow =>
        labels ← first labels_fslow;
        Return (BsoidClassBehaviorPoolTrigger.set_last_result labels self1)
    | None => Return self1
    end
    = Return (BsoidClassBehaviorPoolTrigger.set_last_result (label :: rest) self1)).
  { destruct clf_result as [labels_fslow|].
    - now rewrite Hcached.
    - injection Hcached as Hold. rewrite <- Hlast in Hold.
      destruct self1; cbn in Hold |- *. now rewrite Hold. }
  rewrite Hupdated.
  destruct target_class as [target|]; cbn [fst snd];
    cbn [BsoidClassBehaviorPoolTrigger.set_center
         BsoidClassBehaviorPoolTrigger.set_trigger
         BsoidClassBehaviorPoolTrigger.set_last_result
         BsoidClassBehaviorPoolTrigger._last_result
         BsoidClassBehaviorPoolTrigger._trigger
         BsoidClassBehaviorPoolTrigger._center];
    rewrite match_loop_member; subst targets;
    (split; [reflexivity|]); (split; [first [reflexivity | exact Htrigger]|]);
    rewrite ?Htrigger;
    match goal with |- context [bool_decide ?P] =>
      destruct (bool_decide P) eqn:Hin end;
    eexists _, _; (split; [reflexivity|]);
    first [ apply bool_decide_eq_true_1 in Hin; tauto
          | apply bool_decide_eq_false_1 in Hin; split; [discriminate | tauto] ].
Qed.

(** A trigger for the classes 3 and 5 collects the labels [[5; 1]] and
    matches. *)
Lemma check_skeleton_label_decision_witness :
  let self := BsoidClassBehaviorPoolTrigger.__init__ 2 [3; 5] false in
  let env :=
    mkObserved
      (mkPool false 1
         [@mkProcess BsoidClassBehaviorPoolTrigger.TimeWindow
            (list BsoidClassBehaviorPoolTrigger.Labels)
            Polling None (Some ([[5; 1]], 1)) true])
      [] in
  let call :=
    BsoidClassBehaviorPoolTrigger.check_skeleton (fun _ => []) self env [] None in
  BsoidClassBehaviorPoolTrigger._last_result call.1.2 = [5; 1]
  /\ BsoidClassBehaviorPoolTrigger._trigger call.1.2 = [3; 5]
  /\ exists decision body,
       call.1.1 = Return (decision, body)
       /\ (decision = true <-> 5 ∈ [3; 5]).
Proof.
  intros self env call.
  exact (check_skeleton_label_decision (fun _ => []) self env [] None 5 [1]
           eq_refl).
Defined.

(* ===================================================================== *)
(** * Properties of the geometric triggers *)
(* ===================================================================== *)

Section DirectionFacts.

Variable angle_between_vectors :
  float -> float -> float -> float -> float -> float -> string * float.

(** [HeaddirectionTrigger.check_skeleton] on a skeleton that has a neck
    and a nose: without [debug] it returns the decision and the angle,
    with [debug] it stops at the read of [self._end_point]. *)
Lemma headdirection_check_skeleton (self : HeaddirectionTrigger.Trigger)
    (skeleton : Skeleton) (neck nose : Point) :
  getitem skeleton "neck" = Return neck ->
  getitem skeleton "nose" = Return nose ->
  let true_angle :=
    PrimFloat.abs
      (angle_between_vectors neck.1 neck.2 nose.1 nose.2
         (HeaddirectionTrigger._point self).1
         (HeaddirectionTrigger._point self).2).2 in
  HeaddirectionTrigger.check_skeleton angle_between_vectors self skeleton
  = if HeaddirectionTrigger._debug self
    then Raise (AttributeError "_end_point")
    else Return (PrimFloat.leb true_angle (HeaddirectionTrigger._angle self),
                 Angle true_angle).
Proof.
  intros Hneck Hnose. unfold HeaddirectionTrigger.check_skeleton.
  rewrite Hneck. cbn [mbind Outcome_bind Py.bind]. rewrite Hnose.
  cbn [mbind Outcome_bind Py.bind].
  destruct (angle_between_vectors _ _ _ _ _ _) as [ret_head_dir angle].
  cbn [snd]. now destruct (HeaddirectionTrigger._debug self).
Qed.

(** [EgoHeaddirectionTrigger.check_skeleton] on a skeleton that has a
    tail root, a neck and a nose, in the calls that assign the decision:
    the angle is out of range, or the configured head direction is the
    computed one or ["both"]. *)
Lemma egoheaddirection_check_skeleton (self : EgoHeaddirectionTrigger.Trigger)
    (skeleton : Skeleton) (tailroot neck nose : Point) :
  getitem skeleton "tailroot" = Return tailroot ->
  getitem skeleton "neck" = Return neck ->
  getitem skeleton "nose" = Return nose ->
  let measured :=
    angle_between_vectors tailroot.1 tailroot.2 neck.1 neck.2 nose.1 nose.2 in
  let true_angle := (180 - PrimFloat.abs measured.2)%float in
  let in_range := PrimFloat.leb true_angle (EgoHeaddirectionTrigger._angle self) in
  negb in_range
    || String.eqb (EgoHeaddirectionTrigger._head_dir self) measured.1
    || String.eqb (EgoHeaddirectionTrigger._head_dir self) "both" = true ->
  EgoHeaddirectionTrigger.check_skeleton angle_between_vectors self skeleton
  = if EgoHeaddirectionTrigger._debug self
    then Raise (AttributeError "_end_point")
    else Return (in_range, Angle true_angle).
Proof.
  intros Htail Hneck Hnose measured true_angle in_range Hbound.
  unfold EgoHeaddirectionTrigger.check_skeleton.
  rewrite Htail. cbn [mbind Outcome_bind Py.bind]. rewrite Hneck.
  cbn [mbind Outcome_bind Py.bind]. rewrite Hnose.
  cbn [mbind Outcome_bind Py.bind].
  subst in_range true_angle measured.
  destruct (angle_between_vectors _ _ _ _ _ _) as [ret_head_dir angle].
  cbn [fst snd] in Hbound |- *.
  destruct (PrimFloat.leb _ _); cbn [negb orb] in Hbound.
  - destruct (String.eqb (EgoHeaddirectionTrigger._head_dir self) ret_head_dir).
    + cbn. now destruct (EgoHeaddirectionTrigger._debug self).
    + cbn [orb] in Hbound. rewrite Hbound. cbn.
      now destruct (EgoHeaddirectionTrigger._debug self).
  - cbn. now destruct (EgoHeaddirectionTrigger._debug self).
Qed.

(** With [debug] set, [EgoHeaddirectionTrigger.check_skeleton] returns no
    response on any skeleton. *)
Lemma egoheaddirection_debug_no_response (self : EgoHeaddirectionTrigger.Trigger)
    (skeleton : Skeleton) :
  EgoHeaddirectionTrigger._debug self = true ->
  returns (EgoHeaddirectionTrigger.check_skeleton
             angle_between_vectors self skeleton) = false.
Proof.
  intros Hdebug. unfold EgoHeaddirectionTrigger.check_skeleton.
  destruct (getitem skeleton "tailroot"); [|reflexivity].
  destruct (getitem skeleton "neck"); [|reflexivity].
  destruct (getitem skeleton "nose"); [|reflexivity].
  cbn [mbind Outcome_bind Py.bind].
  destruct (angle_between_vectors _ _ _ _ _ _) as [ret_head_dir angle].
  rewrite Hdebug.
  destruct (EgoHeaddirectionTrigger.local _ _); reflexivity.
Qed.

End DirectionFacts.

(** C9.  The two head-direction triggers evaluated on one skeleton, with
    an analysis routine that reports the direction ["right"] at 170
    degrees.  [HeaddirectionTrigger] behaves as claimed: a response
    without [debug], the failing read of [_end_point] with it.
    [EgoHeaddirectionTrigger], configured for ["left"] with a tolerance of
    45 degrees, leaves its decision variable unassigned on this skeleton
    and fails on reading it, before the debug branch is reached and also
    when [debug] is off. *)
Theorem egoheaddirection_unbound_result :
  let analysis := fun _ _ _ _ _ _ : float => ("right"%string, 170%float) in
  let skeleton : Skeleton :=
    [("tailroot"%string, (0, 0)); ("neck"%string, (10, 0));
     ("nose"%string, (20, 0))]%float in
  HeaddirectionTrigger.check_skeleton analysis
    (HeaddirectionTrigger.__init__ 45%float (0, 0)%float false) skeleton
  = Return (false, Angle 170%float)
  /\ HeaddirectionTrigger.check_skeleton analysis
       (HeaddirectionTrigger.__init__ 45%float (0, 0)%float true) skeleton
     = Raise (AttributeError "_end_point")
  /\ EgoHeaddirectionTrigger.check_skeleton analysis
       (EgoHeaddirectionTrigger.__init__ 45%float "left" true) skeleton
     = Raise (UnboundLocalError "result")
  /\ EgoHeaddirectionTrigger.check_skeleton analysis
       (EgoHeaddirectionTrigger.__init__ 45%float "left" false) skeleton
     = Raise (UnboundLocalError "result")
  /\ EgoHeaddirectionTrigger.check_skeleton analysis
       (EgoHeaddirectionTrigger.__init__ 45%float "both" true) skeleton
     = Raise (AttributeError "_end_point")
  /\ EgoHeaddirectionTrigger.check_skeleton analysis
       (EgoHeaddirectionTrigger.__init__ 45%float "both" false) skeleton
     = Return (true, Angle 10%float).
Proof.
  cbv zeta. repeat split; vm_compute; reflexivity.
Qed.

Section RegionFacts.

Lemma outside_check_skeleton (self : RegionTrigger.Trigger) (skeleton : Skeleton) :
  OutsideTrigger.check_skeleton self skeleton
  = match RegionTrigger.check_skeleton self skeleton with
    | Return (result, response_body) => Return (negb result, response_body)
    | Raise e => Raise e
    end.
Proof.
  unfold OutsideTrigger.check_skeleton.
  destruct (RegionTrigger.check_skeleton self skeleton) as [[result body]|e];
    reflexivity.
Qed.

End RegionFacts.

(** C10.  Construct a [RegionTrigger] and an [OutsideTrigger] with the
    same arguments.  Either both constructions fail with the same error
    (an unknown region type), or both succeed and then, on every
    skeleton: when the region trigger returns [(result, body)] the outside
    trigger returns [(not result, body)], with the very same body, and when
    the region trigger raises the outside trigger raises the same error. *)
Theorem outside_trigger_complements_region
    (EllipseROI RectangleROI : Point -> float -> float -> RegionTrigger.ROI)
    (region_type : string) (center : Point) (radius : float)
    (bodyparts : RegionTrigger.Bodyparts) (debug : bool) (skeleton : Skeleton) :
  match RegionTrigger.__init__ EllipseROI RectangleROI
          region_type center radius bodyparts debug,
        OutsideTrigger.__init__ EllipseROI RectangleROI
          region_type center radius bodyparts debug
  with
  | Return region, Return outside =>
      match RegionTrigger.check_skeleton region skeleton with
      | Return (result, response_body) =>
          OutsideTrigger.check_skeleton outside skeleton
          = Return (negb result, response_body)
      | Raise e => OutsideTrigger.check_skeleton outside skeleton = Raise e
      end
  | Raise e, Raise e' => e = e'
  | _, _ => False
  end.
Proof.
  unfold OutsideTrigger.__init__.
  destruct (RegionTrigger.__init__ _ _ _ _ _ _ _) as [region|e]; [|reflexivity].
  rewrite outside_check_skeleton.
  destruct (RegionTrigger.check_skeleton region skeleton) as [[result body]|e];
    reflexivity.
Qed.

(* ===================================================================== *)
(** * Two sessions, run *)
(* ===================================================================== *)

Section Scenarios.

Import SimbaThresholdBehaviorPoolTrigger Session.

(** The pool state in which warm-up priority fails arises in a
    run: with two slots, once the first worker has finished the first
    window, the second window goes to slot 0 again and slot 1 stays
    unfed. *)
Example second_window_reuses_first_slot :
  let s1 := run rows first_coordinate (start 1 2 0.5%float false)
              [Frame (nose_at 0.25) None; Work 0; Work 0] in
  let s2 := step rows first_coordinate s1 (Frame (nose_at 0.75) None) in
  (running <$> _process_pool (pool (env s1)) = [true; false]
   /\ (fmap snd <$> (input <$> _process_pool (pool (env s1)))) = [None; None]
   /\ (fmap snd <$> (output <$> _process_pool (pool (env s1))))
      = [Some 1; None])
  /\ running <$> _process_pool (pool (env s2)) = [true; false]
  /\ (fmap snd <$> (input <$> _process_pool (pool (env s2)))) = [Some 2; None].
Proof. vm_compute. repeat split. Qed.

(** The result of the window passed first can replace, in the cache, the
    result of a window passed later: slot 1 finishes window 2 before
    slot 0 finishes window 1. *)
Example older_result_overwrites_newer :
  let s2 := run rows first_coordinate (start 1 2 0.5%float false)
              [Frame (nose_at 0.25) None; Frame (nose_at 0.75) None;
               Work 1; Work 1] in
  let s3 := step rows first_coordinate s2 (Frame (nose_at 0.5) None) in
  let s3' := run rows first_coordinate s3 [Work 0; Work 0] in
  let s4 := step rows first_coordinate s3' (Frame (nose_at 0.5) None) in
  (get_result (pool (env s2))).1 = (Some 0.75%float, 2)
  /\ _last_prob (trigger s3) = 0.75%float
  /\ (get_result (pool (env s3'))).1 = (Some 0.25%float, 1)
  /\ _last_prob (trigger s4) = 0.25%float.
Proof. vm_compute. repeat split. Qed.

(** A result under one id for the window of another.  Two frames are
    appended before the feeder thread of slot 0 serialises the item put at
    the first: the worker classifies the deque as the second frame left
    it, and the result collected under id 1, which becomes the cached
    probability, is that of the window passed under id 2. *)
Example result_of_a_later_window :
  let s0 := start 1 1 0.25%float false in
  let actions :=
    [Frame (nose_at 0.5) None; Frame (nose_at 0.75) None;
     Pickle 0; Work 0; Work 0; Frame (nose_at 0.125) None] in
  let s := run rows first_coordinate s0 actions in
  Ledger.collected rows first_coordinate s0 actions = [(0.75%float, 1)]
  /\ (fun item => (first_coordinate item.1, item.2)) <$> passed (env s)
     = [(0.5%float, 1); (0.75%float, 2); (0.125%float, 3)]
  /\ _last_prob (trigger s) = 0.75%float.
Proof. vm_compute. repeat split. Qed.

End Scenarios.

(* ===================================================================== *)
(** * Further properties of the pool *)
(* ===================================================================== *)

Section PoolFrame.

Context {TW R : Type}.
Implicit Types (slots : list (Process TW R)) (item : WorkItem TW).

Lemma pass_time_window_loop_frame slots item :
  Forall2 (fun p p' =>
             process p' = process p /\ output p' = output p
             /\ (running p = true -> running p' = true)
             /\ (input p' = input p
                 \/ (input p = None /\ input p' = Some item
                     /\ running p' = true)))
          slots (pass_time_window_loop slots item).
Proof.
  assert (Hrefl : forall l : list (Process TW R),
    Forall2 (fun p p' =>
               process p' = process p /\ output p' = output p
               /\ (running p = true -> running p' = true)
               /\ (input p' = input p
                   \/ (input p = None /\ input p' = Some item
                       /\ running p' = true))) l l).
  { intros l. apply Forall_Forall2_diag, Forall_forall. intros p _. tauto. }
  induction slots as [|p slots IH]; [constructor|].
  destruct p as [w i o r]. cbn [pass_time_window_loop running input output].
  destruct r, i as [old|], o as [res|]; cbn;
    first [ constructor; [cbn; tauto | exact IH]
          | constructor; [cbn; tauto | apply Hrefl] ].
Qed.

Lemma get_result_loop_frame slots :
  Forall2 (fun p p' =>
             process p' = process p /\ input p' = input p
             /\ running p' = running p
             /\ (output p' = output p \/ output p' = None))
          slots (get_result_loop slots).2.
Proof.
  induction slots as [|p slots IH]; [constructor|].
  cbn [get_result_loop]. destruct (output p) as [[r id]|] eqn:Hp.
  - cbn. constructor; [cbn; tauto|].
    apply Forall_Forall2_diag, Forall_forall. intros q _. tauto.
  - destruct (get_result_loop slots) as [result rest]. cbn in IH |- *.
    constructor; [tauto | exact IH].
Qed.

End PoolFrame.

(** [pass_time_window] never overwrites.  Either the call changes
    nothing at all, or it changes exactly one slot, whose input queue was
    empty: that queue now holds the offered item and the slot is marked
    fed, with its worker and its output queue as before; every other slot
    and the rest of the pool object are as they were.  In particular, slot
    by slot, no worker and no output queue changes, no slot is unfed, an
    item waiting in an input queue is neither overwritten nor removed,
    and the number of slots stays the same. *)
Theorem pass_time_window_never_overwrites {TW R : Type}
    (self : ProcessPool TW R) (item : WorkItem TW) :
  (pass_time_window self item = self
   \/ exists i p,
        _process_pool self !! i = Some p
        /\ input p = None
        /\ pass_time_window self item
           = mkPool (_running self) (_pool_size self)
               (<[i := mkProcess (process p) (Some item) (output p) true]>
                  (_process_pool self)))
  /\ Forall2 (fun p p' =>
                process p' = process p /\ output p' = output p
                /\ (running p = true -> running p' = true)
                /\ (input p' = input p
                    \/ (input p = None /\ input p' = Some item
                        /\ running p' = true)))
             (_process_pool self) (_process_pool (pass_time_window self item)).
Proof.
  split; [|apply pass_time_window_loop_frame].
  unfold pass_time_window.
  destruct (pass_time_window_loop_scan (_process_pool self) item)
    as [[_ Heq] | (i & p & Hi & Hp & _ & Heq)]; rewrite Heq.
  - left. now destruct self.
  - right. exists i, p. split; [exact Hi|]. split; [|reflexivity].
    unfold accepts, warm_up, steady_state in Hp.
    destruct (input p); [|reflexivity].
    cbn in Hp. rewrite !andb_false_r in Hp. discriminate Hp.
Qed.

(** [get_result] changes no worker, no input queue and no fed flag; an
    output queue is either left as it was or emptied, and the number of
    slots stays the same. *)
Theorem get_result_only_drains {TW R : Type} (self : ProcessPool TW R) :
  Forall2 (fun p p' =>
             process p' = process p /\ input p' = input p
             /\ running p' = running p
             /\ (output p' = output p \/ output p' = None))
          (_process_pool self) (_process_pool (get_result self).2).
Proof.
  unfold get_result.
  pose proof (get_result_loop_frame (_process_pool self)) as H.
  now destruct (get_result_loop (_process_pool self)) as [result slots].
Qed.

Section RoundTrip.

Context {TW R : Type}.
Variable classify : TW -> R.

Lemma round_trip_loop (slots : list (Process TW R)) (i : nat) (p : Process TW R)
    (window : TW) (feature_id : Z) :
  slots !! i = Some p ->
  warm_up p = true ->
  process p = Polling ->
  (forall j q, slots !! j = Some q -> output q = None) ->
  (forall j q, (j < i)%nat -> slots !! j = Some q -> accepts q = false) ->
  get_result_loop
    (alter (pool_run classify) i
       (alter (pool_run classify) i
          (pass_time_window_loop slots (window, feature_id))))
  = ((Some (classify window), feature_id),
     <[i := mkProcess Polling None None true]> slots).
Proof.
  revert i. induction slots as [|q slots IH]; intros i Hi Hwarm Hpoll Hout Hfirst.
  - destruct i; discriminate Hi.
  - destruct i as [|i].
    + injection Hi as ->.
      pose proof (Hout 0%nat p eq_refl) as Hp.
      destruct p as [w inp o r]. cbn in Hpoll, Hp. subst w o.
      unfold warm_up in Hwarm. cbn in Hwarm.
      destruct r, inp; try discriminate Hwarm. reflexivity.
    + cbn in Hi.
      rewrite (rejects_head _ _ _ (Hfirst 0%nat q ltac:(lia) eq_refl)).
      cbn [alter list_alter get_result_loop].
      rewrite (Hout 0%nat q eq_refl).
      rewrite (IH i Hi Hwarm Hpoll).
      * reflexivity.
      * intros j q' Hj. exact (Hout (S j) q' Hj).
      * intros j q' Hlt Hj. apply (Hfirst (S j) q'); [lia | exact Hj].
Qed.

End RoundTrip.

(** Round trip through the pool.  Take a pool with nothing to collect
    (every output queue empty) whose first accepting slot [i] has never
    been fed and has an idle worker.  A window passed to it, followed by
    two quanta of worker [i] (take, then put), comes back from
    [get_result] as the classification of that very window under the same
    feature id; slot [i] is then empty again and marked fed, and every
    other slot is as it was. *)
Theorem pass_work_collect_round_trip {TW R : Type} (classify : TW -> R)
    (self : ProcessPool TW R) (i : nat) (p : Process TW R)
    (window : TW) (feature_id : Z) :
  _process_pool self !! i = Some p ->
  warm_up p = true ->
  process p = Polling ->
  (forall j q, _process_pool self !! j = Some q -> output q = None) ->
  (forall j q, (j < i)%nat ->
     _process_pool self !! j = Some q -> accepts q = false) ->
  get_result
    (schedule classify i
       (schedule classify i (pass_time_window self (window, feature_id))))
  = ((Some (classify window), feature_id),
     mkPool (_running self) (_pool_size self)
            (<[i := mkProcess Polling None None true]> (_process_pool self))).
Proof.
  intros Hi Hwarm Hpoll Hout Hfirst.
  unfold get_result, schedule, pass_time_window.
  cbn [_process_pool _running _pool_size].
  now rewrite (round_trip_loop classify _ i p window feature_id
                 Hi Hwarm Hpoll Hout Hfirst).
Qed.

(** The round trip on a freshly built pool of two slots. *)
Lemma pass_work_collect_round_trip_witness :
  get_result
    (schedule S 0
       (schedule S 0 (pass_time_window (@Classifier.__init__ nat nat 2) (7%nat, 1))))
  = ((Some 8%nat, 1),
     mkPool false 2
       [mkProcess Polling None None true; mkProcess Polling None None false]).
Proof.
  apply (pass_work_collect_round_trip S (@Classifier.__init__ nat nat 2) 0
           (mkProcess Polling None None false) 7%nat 1).
  - reflexivity.
  - reflexivity.
  - reflexivity.
  - intros [|[|j]] q Hq; cbn in Hq; try discriminate Hq;
      injection Hq as <-; reflexivity.
  - intros j q Hj. exfalso. exact (Nat.nlt_0_r j Hj).
Defined.

Section Backpressure.

Import SimbaThresholdBehaviorPoolTrigger Ledger.

Variable classify : TimeWindow -> float.

Lemma produce_keeps_output (self : ProcessPool TimeWindow float) (op : Producer)
    (i : nat) (p : Process TimeWindow float) (r : Result float) :
  _process_pool self !! i = Some p ->
  output p = Some r ->
  exists p', _process_pool (produce classify self op) !! i = Some p'
             /\ output p' = Some r.
Proof.
  intros Hi Hp. destruct op as [item | j]; cbn [produce].
  - pose proof (pass_time_window_loop_frame (_process_pool self) item) as Hframe.
    destruct (Forall2_lookup_l _ _ _ _ _ Hframe Hi) as (p' & Hi' & _ & Hout & _).
    exists p'. split; [exact Hi' | congruence].
  - unfold schedule. cbn [_process_pool].
    destruct (decide (j = i)) as [->|Hne].
    + exists (pool_run classify p). rewrite list_lookup_alter_eq, Hi.
      split; [reflexivity|].
      unfold pool_run. destruct (process p) as [|held].
      * destruct (input p) as [[w id]|]; [|exact Hp]. exact Hp.
      * now rewrite Hp.
    + exists p. now rewrite list_lookup_alter_ne.
Qed.

End Backpressure.

(** Only [get_result] removes a result.  A result waiting in the output
    queue of a slot is still there, unchanged, after any sequence of
    [pass_time_window] calls and worker quanta: the slot's own worker
    blocks in [put] instead of overwriting it. *)
Theorem uncollected_result_stays
    (classify : SimbaThresholdBehaviorPoolTrigger.TimeWindow -> float)
    (ops : list Ledger.Producer)
    (self : ProcessPool SimbaThresholdBehaviorPoolTrigger.TimeWindow float)
    (i : nat) (p : Process SimbaThresholdBehaviorPoolTrigger.TimeWindow float)
    (r : Result float) :
  _process_pool self !! i = Some p ->
  output p = Some r ->
  exists p',
    _process_pool (foldl (Ledger.produce classify) self ops) !! i = Some p'
    /\ output p' = Some r.
Proof.
  revert self p. induction ops as [|op ops IH]; intros self p Hi Hp.
  - exists p. now split.
  - cbn [foldl].
    destruct (produce_keeps_output classify self op i p r Hi Hp)
      as (p' & Hi' & Hp').
    exact (IH _ p' Hi' Hp').
Qed.

(** A finished slot is offered two more windows while its worker keeps
    running: the first is taken and classified, the second waits in the
    input queue, and the uncollected result is still the old one. *)
Lemma uncollected_result_stays_witness :
  exists p',
    _process_pool
      (foldl (Ledger.produce Session.first_coordinate)
         (mkPool false 1
            [mkProcess Polling None (Some (0.25%float, 1)) true])
         [Ledger.Pass ([[0.5%float]], 2); Ledger.Run 0; Ledger.Run 0;
          Ledger.Pass ([[0.75%float]], 3); Ledger.Run 0]) !! 0%nat = Some p'
    /\ output p' = Some (0.25%float, 1).
Proof.
  exact (uncollected_result_stays Session.first_coordinate
           [Ledger.Pass ([[0.5%float]], 2); Ledger.Run 0; Ledger.Run 0;
            Ledger.Pass ([[0.75%float]], 3); Ledger.Run 0]
           (mkPool false 1
              [mkProcess Polling None (Some (0.25%float, 1)) true])
           0%nat
           (mkProcess Polling None (Some (0.25%float, 1)) true)
           (0.25%float, 1) eq_refl eq_refl).
Defined.

(* ===================================================================== *)
(** * What goes into the pool and what comes out *)
(* ===================================================================== *)

Section LedgerFacts.

Import SimbaThresholdBehaviorPoolTrigger Session Ledger.

Variable transform_2pose : Skeleton -> list (list float).
Variable classify : TimeWindow -> float.

Implicit Types (s : State) (p : Process TimeWindow float).
Implicit Types (slots : list (Process TimeWindow float)).
Implicit Types (hist : list (WorkItem TimeWindow)).












End LedgerFacts.

Section LedgerInvariant.

Import SimbaThresholdBehaviorPoolTrigger Session Ledger.

Variable transform_2pose : Skeleton -> list (list float).
Variable classify : TimeWindow -> float.

Implicit Types (s : State) (p : Process TimeWindow float).
Implicit Types (slots : list (Process TimeWindow float)).
Implicit Types (hist : list (WorkItem TimeWindow)).
















End LedgerInvariant.

Section LedgerCache.

Import SimbaThresholdBehaviorPoolTrigger Session Ledger.

Variable transform_2pose : Skeleton -> list (list float).
Variable classify : TimeWindow -> float.

Implicit Types (s : State).



(** The pool record and the number of slots are the same after any
    action. *)
Lemma step_membership s a :
  let s' := step transform_2pose classify s a in
  _running (pool (env s')) = _running (pool (env s))
  /\ _pool_size (pool (env s')) = _pool_size (pool (env s))
  /\ length (_process_pool (pool (env s')))
     = length (_process_pool (pool (env s))).
Proof.
  destruct a as [skeleton target_prob | i | i]; cbv zeta.
  - unfold step. rewrite check_skeleton_unfold. cbn [env].
    unfold call_get_result, get_result.
    pose proof (get_result_loop_frame
      (_process_pool (pool (submit (fill_time_window transform_2pose
                                      (trigger s) skeleton) (env s)).2)))
      as Hcollect.
    apply Forall2_length in Hcollect.
    destruct (get_result_loop _) as [result slots]. cbn [snd pool _running
      _pool_size _process_pool] in Hcollect |- *.
    rewrite <- Hcollect. unfold submit.
    destruct (_ =? _)%nat; cbn [snd call_pass_time_window pool pass_time_window
      _running _pool_size _process_pool]; repeat split.
    symmetry. eapply Forall2_length, pass_time_window_loop_frame.
  - unfold step, schedule. cbn. repeat split. apply length_alter.
  - unfold step, feeder. cbn. repeat split. apply length_alter.
Qed.

End LedgerCache.





(** Pool membership is fixed and the status flag is dead: after any run
    of a session the pool still has exactly [pool_size] slots, and
    [get_status] still answers [False], whatever the slots are doing. *)
Theorem pool_membership_and_status_fixed
    (transform_2pose : Skeleton -> list (list float))
    (classify : SimbaThresholdBehaviorPoolTrigger.TimeWindow -> float)
    (TIME_WINDOW pool_size : nat) (prob_threshold : float) (debug : bool)
    (actions : list Session.Action) :
  let s :=
    Session.run transform_2pose classify
      (Session.start TIME_WINDOW pool_size prob_threshold debug) actions in
  get_status (pool (Session.env s)) = false
  /\ _pool_size (pool (Session.env s)) = pool_size
  /\ length (_process_pool (pool (Session.env s))) = pool_size.
Proof.
  cbv zeta. unfold get_status.
  assert (Hgen : forall s,
    _running (pool (Session.env (Session.run transform_2pose classify s actions)))
    = _running (pool (Session.env s))
    /\ _pool_size (pool (Session.env (Session.run transform_2pose classify s actions)))
       = _pool_size (pool (Session.env s))
    /\ length (_process_pool (pool (Session.env
                 (Session.run transform_2pose classify s actions))))
       = length (_process_pool (pool (Session.env s)))).
  { induction actions as [|a rest IH]; intros s; [now repeat split|].
    destruct (step_membership transform_2pose classify s a) as (H1 & H2 & H3).
    destruct (IH (Session.step transform_2pose classify s a)) as (H1' & H2' & H3').
    split; [|split].
    - etransitivity; [exact H1' | exact H1].
    - etransitivity; [exact H2' | exact H2].
    - etransitivity; [exact H3' | exact H3]. }
  destruct (Hgen (Session.start TIME_WINDOW pool_size prob_threshold debug))
    as (H1 & H2 & H3).
  rewrite H1, H2, H3. cbn. repeat split.
  unfold initiate_pool. apply length_replicate.
Qed.

(* ===================================================================== *)
(** * The accumulator as a sliding window *)
(* ===================================================================== *)

Section SlidingWindow.

Import SimbaThresholdBehaviorPoolTrigger Session Ledger.

Variable transform_2pose : Skeleton -> list (list float).
Variable classify : TimeWindow -> float.

(** Appending to a deque that holds the last [W] rows gives the last [W]
    rows of the longer list. *)
Lemma deque_append_last (W : nat) (rows : list (list float)) (x : list float) :
  deque_append W (drop (length rows - W) rows) x
  = drop (length (rows ++ [x]) - W) (rows ++ [x]).
Proof.
  unfold deque_append. rewrite !length_app, length_drop. cbn [length].
  destruct (decide (length rows < W)%nat) as [Hlt | Hge].
  - replace (length rows - W)%nat with 0%nat by lia.
    rewrite drop_0. f_equal. lia.
  - replace (length rows - (length rows - W) + 1 - W)%nat with 1%nat by lia.
    destruct W as [|W].
    + rewrite Nat.sub_0_r, drop_all. cbn.
      symmetry. apply drop_ge. rewrite length_app. cbn. lia.
    + rewrite drop_app_le by (rewrite length_drop; lia).
      rewrite drop_drop, (drop_app_le rows) by lia.
      do 2 f_equal. lia.
Qed.

Lemma windows_grow (W : nat) (rows : list (list float)) (x : list float) :
  (W <= S (length rows))%nat ->
  windows W (rows ++ [x])
  = windows W rows
      ++ [(drop (length (rows ++ [x]) - W) (rows ++ [x]),
           Z.of_nat (length (windows W rows)) + 1)].
Proof.
  intros Hready. unfold windows. rewrite !length_fmap, !length_seq, length_app.
  cbn [length].
  replace (S (length rows + 1) - max W 1)%nat
    with (S (S (length rows) - max W 1)) by lia.
  rewrite seq_S, fmap_app. cbn [fmap list_fmap Nat.add]. f_equal.
  - apply list_fmap_ext. intros i j Hj.
    apply lookup_seq in Hj as [-> Hlt]. cbn [Nat.add]. f_equal.
    destruct W as [|W]; [reflexivity|].
    rewrite drop_app_le by lia. apply take_app_le. rewrite length_drop. lia.
  - f_equal. f_equal; [|lia].
    destruct W as [|W].
    + cbn [take]. symmetry. apply drop_ge. rewrite length_app. cbn. lia.
    + replace (S (length rows) - max (S W) 1)%nat
        with (length rows + 1 - S W)%nat by lia.
      apply take_ge. rewrite length_drop, length_app. cbn. lia.
Qed.

Lemma windows_wait (W : nat) (rows : list (list float)) (x : list float) :
  (S (length rows) < W)%nat -> windows W (rows ++ [x]) = windows W rows.
Proof.
  intros Hwait. unfold windows. rewrite length_app. cbn [length].
  replace (S (length rows + 1) - max W 1)%nat with 0%nat by lia.
  replace (S (length rows) - max W 1)%nat with 0%nat by lia. reflexivity.
Qed.

Lemma run_snoc (s : State) (actions : list Action) (a : Action) :
  run transform_2pose classify s (actions ++ [a])
  = step transform_2pose classify (run transform_2pose classify s actions) a.
Proof. unfold run. apply foldl_snoc. Qed.

End SlidingWindow.

(** The accumulator is a sliding window.  After any run of a session
    from a fresh trigger with window length [W], whatever the pool and
    the workers did: the deque holds the last [W] transformed frames,
    oldest first (all of them while fewer than [W] have arrived); the
    windows passed to the pool are exactly the runs of [W] consecutive
    transformed frames, in order of arrival, the [j]-th one tagged [j];
    and the feature id counts them. *)
Theorem accumulator_is_sliding_window
    (transform_2pose : Skeleton -> list (list float))
    (classify : SimbaThresholdBehaviorPoolTrigger.TimeWindow -> float)
    (TIME_WINDOW pool_size : nat) (prob_threshold : float) (debug : bool)
    (actions : list Session.Action) :
  let s :=
    Session.run transform_2pose classify
      (Session.start TIME_WINDOW pool_size prob_threshold debug) actions in
  let rows :=
    SimbaThresholdBehaviorPoolTrigger.flat_values transform_2pose
      <$> Ledger.frames_of actions in
  SimbaThresholdBehaviorPoolTrigger._time_window_len (Session.trigger s)
  = TIME_WINDOW
  /\ SimbaThresholdBehaviorPoolTrigger._time_window (Session.trigger s)
     = drop (length rows - TIME_WINDOW) rows
  /\ passed (Session.env s) = Ledger.windows TIME_WINDOW rows
  /\ SimbaThresholdBehaviorPoolTrigger._feature_id (Session.trigger s)
     = Z.of_nat (length (Ledger.windows TIME_WINDOW rows)).
Proof.
  induction actions as [|a actions IH] using rev_ind.
  - cbn. unfold Ledger.windows. cbn.
    replace (1 - max TIME_WINDOW 1)%nat with 0%nat by lia. now repeat split.
  - cbv zeta in IH |- *. destruct IH as (Hlen & Hwindow & Hpassed & Hfid).
    rewrite run_snoc. unfold Ledger.frames_of. rewrite bind_app, fmap_app.
    fold (Ledger.frames_of actions). cbn [mbind list_bind app].
    set (s := Session.run transform_2pose classify _ actions) in *.
    set (rows := _ <$> Ledger.frames_of actions) in *.
    destruct a as [skeleton target_prob | i | i].
    + destruct (step_frame transform_2pose classify s skeleton target_prob)
        as (Hlen' & Hwindow' & Hfid' & Hpassed').
      rewrite Hlen, Hwindow, Hfid in *.
      change (SimbaThresholdBehaviorPoolTrigger.flat_values transform_2pose
                <$> [skeleton] ++ [])
        with [SimbaThresholdBehaviorPoolTrigger.flat_values
                transform_2pose skeleton].
      set (x := SimbaThresholdBehaviorPoolTrigger.flat_values
                  transform_2pose skeleton) in *.
      rewrite deque_append_last in *.
      assert (Hsize : length (drop (length (rows ++ [x]) - TIME_WINDOW)
                                   (rows ++ [x]))
                      = min (S (length rows)) TIME_WINDOW).
      { rewrite length_drop, length_app. cbn [length]. lia. }
      rewrite Hsize in *.
      split; [exact Hlen'|]. split; [exact Hwindow'|].
      destruct (Nat.eqb_spec (min (S (length rows)) TIME_WINDOW) TIME_WINDOW)
        as [Hready | Hwait].
      * rewrite windows_grow by lia. rewrite Hpassed', Hpassed.
        split; [reflexivity|]. rewrite Hfid', length_app. cbn. lia.
      * rewrite windows_wait by lia. rewrite Hpassed', Hpassed, app_nil_r.
        split; [reflexivity | exact Hfid'].
    + change (SimbaThresholdBehaviorPoolTrigger.flat_values transform_2pose
                <$> [] ++ []) with (@nil (list float)).
      rewrite app_nil_r. now repeat split.
    + change (SimbaThresholdBehaviorPoolTrigger.flat_values transform_2pose
                <$> [] ++ []) with (@nil (list float)).
      rewrite app_nil_r. now repeat split.
Qed.

(* ===================================================================== *)
(** * Rows and windows of the two pool triggers *)
(* ===================================================================== *)

(** The row built for one frame.  The pose transform is applied to the
    skeleton without the two tail-tip entries and with every other entry
    kept in order; its values come first in the row, followed by zeros
    only; the row has at least 28 entries, and exactly 28 whenever the
    transform yields at most 28 values. *)
Theorem flat_values_padded
    (transform_2pose : Skeleton -> list (list float)) (skeleton : Skeleton) :
  let selection :=
    filter (fun kv : string * Point =>
              kv.1 <> "0_tail_tip"%string /\ kv.1 <> "1_tail_tip"%string)
           skeleton in
  let flat := concat (transform_2pose selection) in
  let row := SimbaThresholdBehaviorPoolTrigger.flat_values transform_2pose skeleton in
  row = flat ++ replicate (28 - length flat) 0%float
  /\ length row = max 28 (length flat)
  /\ ((length flat <= 28)%nat -> length row = 28%nat).
Proof.
  intros selection flat row.
  assert (Hsel : filter (fun kv : string * Point =>
                           kv.1 ∉ SimbaThresholdBehaviorPoolTrigger.key_selection)
                        skeleton = selection).
  { subst selection. apply list_filter_iff. intros [k v]. cbn.
    unfold SimbaThresholdBehaviorPoolTrigger.key_selection.
    rewrite !not_elem_of_cons. split; [tauto|]. intros [H0 H1].
    repeat split; try assumption. apply not_elem_of_nil. }
  assert (Hrow : row = flat ++ replicate (28 - length flat) 0%float).
  { subst row. unfold SimbaThresholdBehaviorPoolTrigger.flat_values.
    rewrite Hsel. fold flat.
    destruct (Nat.ltb_spec (length flat) 28) as [Hlt | Hge]; [reflexivity|].
    replace (28 - length flat)%nat with 0%nat by lia. cbn.
    now rewrite app_nil_r. }
  split; [exact Hrow|].
  assert (Hlen : length row = max 28 (length flat)).
  { rewrite Hrow, length_app, length_replicate. lia. }
  split; [exact Hlen | lia].
Qed.

(** The skeleton of one animal with a tail tip: the tail tip does not
    reach the row, and the row is padded from 4 to 28 entries. *)
Lemma flat_values_padded_witness :
  length (SimbaThresholdBehaviorPoolTrigger.flat_values Session.rows
            [("0_nose"%string, (1, 2)%float);
             ("0_tail_tip"%string, (3, 4)%float);
             ("0_neck"%string, (5, 6)%float)]) = 28%nat.
Proof.
  apply (flat_values_padded Session.rows
           [("0_nose"%string, (1, 2)%float);
            ("0_tail_tip"%string, (3, 4)%float);
            ("0_neck"%string, (5, 6)%float)]).
  vm_compute. repeat constructor.
Defined.

Section BsoidWindow.

Import BsoidClassBehaviorPoolTrigger.

Variable transform_2pose : Skeleton -> list (list float).

Lemma foldl_fill_time_window (frames : list Skeleton) (self : Trigger) :
  (length (_time_window self) <= _time_window_len self)%nat ->
  let self' := foldl (fill_time_window transform_2pose) self frames in
  _time_window_len self' = _time_window_len self
  /\ _trigger self' = _trigger self
  /\ _last_result self' = _last_result self
  /\ _feature_id self' = _feature_id self
  /\ _time_window self'
     = take (_time_window_len self)
            (reverse (transform_2pose <$> frames) ++ _time_window self).
Proof.
  revert self. induction frames as [|frame frames IH]; intros self Hlen.
  - cbn. repeat split. symmetry. now apply take_ge.
  - cbn [foldl]. cbv zeta.
    destruct (IH (fill_time_window transform_2pose self frame)) as
      (H1 & H2 & H3 & H4 & H5).
    { unfold fill_time_window, deque_appendleft. cbn. rewrite length_take.
      cbn [length]. lia. }
    rewrite H1, H2, H3, H4, H5. repeat split.
    unfold fill_time_window, deque_appendleft.
    cbn [_time_window _time_window_len set_time_window].
    rewrite fmap_cons, reverse_cons, <- app_assoc. cbn [app].
    set (older := reverse (transform_2pose <$> frames)).
    set (x := transform_2pose frame). set (W := _time_window_len self).
    rewrite !take_app.
    f_equal.
    destruct (decide (length older < W)%nat) as [Hlt | Hge].
    + rewrite take_take. f_equal. lia.
    + replace (W - length older)%nat with 0%nat by lia. reflexivity.
Qed.

End BsoidWindow.

(** The deque of the label trigger.  After a freshly built trigger with
    window length [W] has been fed any frames, its deque holds the [W]
    most recent transformed poses, newest first (all of them while fewer
    than [W] have arrived); feeding changes no other attribute. *)
Theorem bsoid_window_newest_first
    (transform_2pose : Skeleton -> list (list float))
    (time_window_len : nat) (target_class : list Z) (debug : bool)
    (frames : list Skeleton) :
  let self :=
    foldl (BsoidClassBehaviorPoolTrigger.fill_time_window transform_2pose)
      (BsoidClassBehaviorPoolTrigger.__init__ time_window_len target_class debug)
      frames in
  BsoidClassBehaviorPoolTrigger._time_window self
  = take time_window_len (reverse (transform_2pose <$> frames))
  /\ length (BsoidClassBehaviorPoolTrigger._time_window self)
     = min time_window_len (length frames)
  /\ BsoidClassBehaviorPoolTrigger._last_result self = [-1]
  /\ BsoidClassBehaviorPoolTrigger._trigger self = target_class
  /\ BsoidClassBehaviorPoolTrigger._feature_id self = 0.
Proof.
  cbv zeta.
  destruct (foldl_fill_time_window transform_2pose frames
              (BsoidClassBehaviorPoolTrigger.__init__
                 time_window_len target_class debug))
    as (_ & H2 & H3 & H4 & H5); [cbn; lia|].
  cbv zeta in H2, H3, H4, H5. rewrite H2, H3, H4, H5. cbn.
  rewrite app_nil_r. repeat split.
  now rewrite length_take, length_reverse, length_fmap.
Qed.

(** The edge cases of the label trigger.  If [get_result] hands back an
    empty list of label sequences, [check_skeleton] fails with
    [IndexError] before anything is cached, and the per-call
    [target_class] of that call is not stored.  Otherwise the cache and
    the targets are updated, and then: with an empty target list the call
    returns [False] without ever looking at the cached labels; with a
    target to compare and an empty cached label sequence it fails with
    [IndexError]; in the remaining case it returns. *)
Theorem check_skeleton_label_edges
    (transform_2pose : Skeleton -> list (list float))
    (self : BsoidClassBehaviorPoolTrigger.Trigger)
    (env : Observed BsoidClassBehaviorPoolTrigger.TimeWindow
                    (list BsoidClassBehaviorPoolTrigger.Labels))
    (skeleton : Skeleton) (target_class : option (list Z)) :
  let submitted :=
    BsoidClassBehaviorPoolTrigger.submit
      (BsoidClassBehaviorPoolTrigger.fill_time_window
         transform_2pose self skeleton) env in
  let targets :=
    match target_class with
    | Some target => target
    | None => BsoidClassBehaviorPoolTrigger._trigger self
    end in
  let call :=
    BsoidClassBehaviorPoolTrigger.check_skeleton
      transform_2pose self env skeleton target_class in
  match (get_result (pool submitted.2)).1.1 with
  | Some [] =>
      call.1.1 = Raise IndexError
      /\ BsoidClassBehaviorPoolTrigger._last_result call.1.2
         = BsoidClassBehaviorPoolTrigger._last_result self
      /\ BsoidClassBehaviorPoolTrigger._trigger call.1.2
         = BsoidClassBehaviorPoolTrigger._trigger self
  | collected =>
      let cache :=
        match collected with
        | Some (labels :: _) => labels
        | _ => BsoidClassBehaviorPoolTrigger._last_result self
        end in
      BsoidClassBehaviorPoolTrigger._last_result call.1.2 = cache
      /\ BsoidClassBehaviorPoolTrigger._trigger call.1.2 = targets
      /\ match targets, cache with
         | [], _ =>
             call.1.1
             = Return (false,
                       BsoidClassBehaviorPoolTrigger.mkBody
                         (BsoidClassBehaviorPoolTrigger.CurrentClass cache)
                         (Some (50, 50)) (color_of false))
         | _ :: _, [] => call.1.1 = Raise IndexError
         | _ :: _, _ :: _ => returns call.1.1 = true
         end
  end.
Proof.
  intros submitted targets call. subst call.
  unfold BsoidClassBehaviorPoolTrigger.check_skeleton.
  fold submitted. destruct submitted as [self1 env1] eqn:Hsub.
  assert (Hframe : BsoidClassBehaviorPoolTrigger._trigger self1
                   = BsoidClassBehaviorPoolTrigger._trigger self
                   /\ BsoidClassBehaviorPoolTrigger._last_result self1
                      = BsoidClassBehaviorPoolTrigger._last_result self).
  { subst submitted. unfold BsoidClassBehaviorPoolTrigger.submit in Hsub.
    destruct (length _ =? _)%nat; injection Hsub as <- <-; now split. }
  destruct Hframe as [Htrigger Hlast]. clear Hsub.
  destruct self1 as [trg1 last1 fid1 center1 debug1 len1 window1].
  cbn in Htrigger, Hlast. subst trg1 last1.
  cbn [snd]. unfold call_get_result.
  destruct (get_result (pool env1)) as [[clf_result feature_id] pool'].
  cbn [fst snd].
  destruct clf_result as [[|labels labels_fslow]|].
  - cbn. now repeat split.
  - cbn [first mbind Outcome_bind Py.bind].
    subst targets. destruct target_class as [target|]; cbn [fst snd
      BsoidClassBehaviorPoolTrigger.set_center
      BsoidClassBehaviorPoolTrigger.set_trigger
      BsoidClassBehaviorPoolTrigger.set_last_result
      BsoidClassBehaviorPoolTrigger._last_result
      BsoidClassBehaviorPoolTrigger._trigger
      BsoidClassBehaviorPoolTrigger._center];
      (split; [reflexivity|]); (split; [reflexivity|]).
    + destruct target as [|t target]; [reflexivity|].
      destruct labels as [|label labels]; [reflexivity|].
      rewrite match_loop_member. now destruct (bool_decide _).
    + destruct (BsoidClassBehaviorPoolTrigger._trigger self) as [|t target];
        [reflexivity|].
      destruct labels as [|label labels]; [reflexivity|].
      rewrite match_loop_member. now destruct (bool_decide _).
  - subst targets. destruct target_class as [target|]; cbn [fst snd
      BsoidClassBehaviorPoolTrigger.set_center
      BsoidClassBehaviorPoolTrigger.set_trigger
      BsoidClassBehaviorPoolTrigger.set_last_result
      BsoidClassBehaviorPoolTrigger._last_result
      BsoidClassBehaviorPoolTrigger._trigger
      BsoidClassBehaviorPoolTrigger._center];
      (split; [reflexivity|]); (split; [reflexivity|]).
    + destruct target as [|t target]; [reflexivity|].
      destruct (BsoidClassBehaviorPoolTrigger._last_result self)
        as [|label labels]; [reflexivity|].
      rewrite match_loop_member. now destruct (bool_decide _).
    + destruct (BsoidClassBehaviorPoolTrigger._trigger self) as [|t target];
        [reflexivity|].
      destruct (BsoidClassBehaviorPoolTrigger._last_result self)
        as [|label labels]; [reflexivity|].
      rewrite match_loop_member. now destruct (bool_decide _).
Qed.

(* ===================================================================== *)
(** * Further properties of the geometric triggers *)
(* ===================================================================== *)

Section LookupFacts.

Lemma getitem_raises {V} (d : list (string * V)) (key : string) (e : Exception) :
  getitem d key = Raise e -> e = KeyError key.
Proof.
  induction d as [|[k v] d IH]; cbn.
  - now intros [= <-].
  - destruct (String.eqb k key); [discriminate | exact IH].
Qed.

Lemma py_int_raises (f : float) (e : Exception) :
  py_int f = Raise e -> e = ValueError \/ e = OverflowError.
Proof.
  unfold py_int. destruct (Prim2SF f); intros [= <-]; tauto.
Qed.

Lemma check_parts_raises (roi : RegionTrigger.ROI) (skeleton : Skeleton)
    (parts : list string) (e : Exception) :
  RegionTrigger.check_parts roi skeleton parts = Raise e ->
  exists part, part ∈ parts /\ e = KeyError part.
Proof.
  induction parts as [|part parts IH]; cbn; [discriminate|].
  destruct (getitem skeleton part) as [bp|e'] eqn:Hpart; cbn.
  - destruct (RegionTrigger.check_parts roi skeleton parts) as [results|e'']; cbn;
      [discriminate|].
    intros [= <-]. destruct (IH eq_refl) as (p & Hp & ->).
    exists p. split; [now apply list_elem_of_further | reflexivity].
  - intros [= <-]. exists part. split; [apply list_elem_of_here|].
    exact (getitem_raises _ _ _ Hpart).
Qed.

End LookupFacts.

(** [DirectionTrigger]: the debug flag changes the response body only.
    Two triggers that differ in [debug] alone either both fail with the
    same error (a configured joint is missing from the skeleton) or both
    return the same decision, which is [180 - |angle| <= self._angle]. *)
Theorem direction_debug_keeps_decision
    (angle_between_vectors :
       float -> float -> float -> float -> float -> float -> string * float)
    (angle : float) (point : Point) (start_point end_point : string)
    (skeleton : Skeleton) :
  let plain :=
    DirectionTrigger.check_skeleton angle_between_vectors
      (DirectionTrigger.mkTrigger angle false point start_point end_point)
      skeleton in
  let verbose :=
    DirectionTrigger.check_skeleton angle_between_vectors
      (DirectionTrigger.mkTrigger angle true point start_point end_point)
      skeleton in
  match getitem skeleton start_point, getitem skeleton end_point with
  | Return start, Return end_ =>
      let true_angle :=
        (180 - PrimFloat.abs
                 (angle_between_vectors point.1 point.2 start.1 start.2
                                        end_.1 end_.2).2)%float in
      plain = Return (PrimFloat.leb true_angle angle,
                      DirectionTrigger.Angle true_angle)
      /\ exists body, verbose = Return (PrimFloat.leb true_angle angle, body)
  | Raise e, _ => plain = Raise e /\ verbose = Raise e
  | Return _, Raise e => plain = Raise e /\ verbose = Raise e
  end.
Proof.
  cbv zeta. unfold DirectionTrigger.check_skeleton.
  cbn [DirectionTrigger._start_point DirectionTrigger._end_point
       DirectionTrigger._point DirectionTrigger._angle DirectionTrigger._debug].
  destruct (getitem skeleton start_point) as [start|e]; [|now split].
  destruct (getitem skeleton end_point) as [end_|e]; [|now split].
  cbn [mbind Outcome_bind Py.bind].
  destruct (angle_between_vectors _ _ _ _ _ _) as [head_dir measured].
  cbn [snd]. split; [reflexivity|]. eexists. reflexivity.
Qed.

(** [RegionTrigger.__init__] accepts the region types whose lower-case
    form is ["circle"] or ["square"] and rejects every other one with a
    [KeyError]; the region is built by the matching class from
    [(center, radius, radius)].  A trigger so constructed never fails in
    [check_skeleton] for want of a response body. *)
Theorem region_init_circle_or_square
    (EllipseROI RectangleROI : Point -> float -> float -> RegionTrigger.ROI)
    (region_type : string) (center : Point) (radius : float)
    (bodyparts : RegionTrigger.Bodyparts) (debug : bool) :
  let roi_type := RegionTrigger.lower region_type in
  match RegionTrigger.__init__ EllipseROI RectangleROI
          region_type center radius bodyparts debug with
  | Return self =>
      ((roi_type = "circle"%string
        /\ self = RegionTrigger.mkTrigger "circle" (EllipseROI center radius radius)
                                          bodyparts debug)
       \/ (roi_type = "square"%string
           /\ self = RegionTrigger.mkTrigger "square"
                       (RectangleROI center radius radius) bodyparts debug))
      /\ forall skeleton,
           RegionTrigger.check_skeleton self skeleton
           <> Raise (UnboundLocalError "response_body")
  | Raise e =>
      e = KeyError roi_type
      /\ roi_type <> "circle"%string /\ roi_type <> "square"%string
  end.
Proof.
  cbv zeta. unfold RegionTrigger.__init__. cbn [getitem].
  assert (Hbody : forall (self : RegionTrigger.Trigger) skeleton,
    (RegionTrigger._roi_type self = "circle"%string
     \/ RegionTrigger._roi_type self = "square"%string) ->
    RegionTrigger.check_skeleton self skeleton
    <> Raise (UnboundLocalError "response_body")).
  { intros self skeleton Htype. unfold RegionTrigger.check_skeleton.
    destruct (RegionTrigger._bodyparts self) as [part | parts].
    - destruct (getitem skeleton part) as [bp|e] eqn:Hpart; cbn.
      + destruct Htype as [-> | ->]; cbn.
        * destruct (py_int _) as [r|e] eqn:Hint; cbn; [discriminate|].
          intros [= ->]. apply py_int_raises in Hint as [?|?]; discriminate.
        * destruct (RegionTrigger.get_box _) as [[[x1 y1] x2] y2]. discriminate.
      + intros [= ->]. apply getitem_raises in Hpart. discriminate.
    - destruct (RegionTrigger.check_parts _ skeleton parts) as [rs|e] eqn:Hparts;
        cbn.
      + destruct Htype as [-> | ->]; cbn.
        * destruct (py_int _) as [r|e] eqn:Hint; cbn; [discriminate|].
          intros [= ->]. apply py_int_raises in Hint as [?|?]; discriminate.
        * destruct (RegionTrigger.get_box _) as [[[x1 y1] x2] y2]. discriminate.
      + intros [= ->]. apply check_parts_raises in Hparts as (p & _ & ?).
        discriminate. }
  destruct (String.eqb_spec "circle" (RegionTrigger.lower region_type))
    as [Hcircle | Hcircle].
  - cbn [mbind Outcome_bind Py.bind]. rewrite <- Hcircle. split; [now left|].
    intros skeleton. apply Hbody. now left.
  - destruct (String.eqb_spec "square" (RegionTrigger.lower region_type))
      as [Hsquare | Hsquare].
    + cbn [mbind Outcome_bind Py.bind]. rewrite <- Hsquare. split; [now right|].
      intros skeleton. apply Hbody. now right.
    + cbn [mbind Outcome_bind Py.bind]. repeat split; congruence.
Qed.

(** A list with one joint name behaves as the bare name:
    [RegionTrigger.check_skeleton] gives the same outcome for
    [bodyparts = [part]] and [bodyparts = part]. *)
Theorem region_singleton_list_is_joint
    (roi_type : string) (roi : RegionTrigger.ROI) (part : string) (debug : bool)
    (skeleton : Skeleton) :
  RegionTrigger.check_skeleton
    (RegionTrigger.mkTrigger roi_type roi (RegionTrigger.Joints [part]) debug)
    skeleton
  = RegionTrigger.check_skeleton
      (RegionTrigger.mkTrigger roi_type roi (RegionTrigger.Joint part) debug)
      skeleton.
Proof.
  unfold RegionTrigger.check_skeleton.
  cbn [RegionTrigger._bodyparts RegionTrigger._region_of_interest
       RegionTrigger._roi_type RegionTrigger.check_parts].
  destruct (getitem skeleton part) as [bp|e]; [|reflexivity].
  cbn. now rewrite orb_false_r.
Qed.

Section RegionList.

Lemma check_parts_missing (roi : RegionTrigger.ROI) (skeleton : Skeleton)
    (before after : list string) (part : string) :
  (forall p, p ∈ before -> returns (getitem skeleton p) = true) ->
  returns (getitem skeleton part) = false ->
  RegionTrigger.check_parts roi skeleton (before ++ part :: after)
  = Raise (KeyError part).
Proof.
  intros Hbefore Hpart. induction before as [|p before IH]; cbn.
  - destruct (getitem skeleton part) as [bp|e] eqn:Hget; [discriminate Hpart|].
    cbn. now rewrite (getitem_raises _ _ _ Hget).
  - pose proof (Hbefore p (list_elem_of_here _ _)) as Hp.
    destruct (getitem skeleton p) as [bp|e]; [|discriminate Hp]. cbn.
    rewrite IH; [reflexivity|].
    intros q Hq. apply Hbefore. now apply list_elem_of_further.
Qed.

End RegionList.

(** One missing joint spoils the list.  When the joint list of a
    [RegionTrigger] names a joint that the skeleton does not have, with
    every joint listed before it present, [check_skeleton] fails with a
    [KeyError] for that joint, wherever the other joints are. *)
Theorem region_missing_joint_raises
    (roi_type : string) (roi : RegionTrigger.ROI) (debug : bool)
    (before after : list string) (part : string) (skeleton : Skeleton) :
  (forall p, p ∈ before -> returns (getitem skeleton p) = true) ->
  returns (getitem skeleton part) = false ->
  RegionTrigger.check_skeleton
    (RegionTrigger.mkTrigger roi_type roi
       (RegionTrigger.Joints (before ++ part :: after)) debug)
    skeleton
  = Raise (KeyError part).
Proof.
  intros Hbefore Hpart. unfold RegionTrigger.check_skeleton.
  cbn [RegionTrigger._bodyparts RegionTrigger._region_of_interest].
  now rewrite (check_parts_missing roi skeleton before after part Hbefore Hpart).
Qed.

(** A region that contains every point, asked about the nose and the
    tail of a skeleton that has no tail. *)
Lemma region_missing_joint_raises_witness :
  RegionTrigger.check_skeleton
    (RegionTrigger.mkTrigger "square"
       (RegionTrigger.mkROI (fun _ _ => true) (0, 0)%float 5%float
                            (0, 0, 10, 10)%float)
       (RegionTrigger.Joints (["nose"%string] ++ "tail"%string :: [])) false)
    [("nose"%string, (1, 1)%float)]
  = Raise (KeyError "tail").
Proof.
  apply (region_missing_joint_raises "square" _ false ["nose"%string] []
           "tail" [("nose"%string, (1, 1)%float)]).
  - intros p Hp. apply list_elem_of_singleton in Hp as ->. reflexivity.
  - reflexivity.
Defined.

(** [HeaddirectionROITrigger]: construction succeeds, and on a skeleton
    with a neck and a nose, for a radius that [int()] accepts, the
    trigger fires exactly when the head points at the centre within the
    angle and the nose is outside the circle.  The debug flag changes the
    response body only: the inner head-direction trigger is built
    without it. *)
Theorem headdirection_roi_decision
    (angle_between_vectors :
       float -> float -> float -> float -> float -> float -> string * float)
    (EllipseROI RectangleROI : Point -> float -> float -> RegionTrigger.ROI)
    (center : Point) (radius angle : float) (debug : bool)
    (skeleton : Skeleton) (neck nose : Point) (radius_int : Z) :
  getitem skeleton "neck" = Return neck ->
  getitem skeleton "nose" = Return nose ->
  py_int (RegionTrigger.get_x_radius (EllipseROI center radius radius))
  = Return radius_int ->
  let true_angle :=
    PrimFloat.abs
      (angle_between_vectors neck.1 neck.2 nose.1 nose.2 center.1 center.2).2 in
  let inside :=
    RegionTrigger.check_point (EllipseROI center radius radius) nose.1 nose.2 in
  let result := PrimFloat.leb true_angle angle && negb inside in
  exists self,
    HeaddirectionROITrigger.__init__ EllipseROI RectangleROI
      center radius angle debug = Return self
    /\ HeaddirectionROITrigger.check_skeleton angle_between_vectors self skeleton
       = Return (result,
                 if debug
                 then HeaddirectionROITrigger.PlotTextCircle
                        true_angle nose center radius (color_of result)
                 else HeaddirectionROITrigger.Angle true_angle).
Proof.
  intros Hneck Hnose Hint true_angle inside result.
  eexists. split; [reflexivity|].
  unfold HeaddirectionROITrigger.check_skeleton.
  cbn [HeaddirectionROITrigger._center HeaddirectionROITrigger._debug
       HeaddirectionROITrigger._radius
       HeaddirectionROITrigger._headdirection_trigger
       HeaddirectionROITrigger._region_trigger].
  rewrite (headdirection_check_skeleton angle_between_vectors _ skeleton
             neck nose Hneck Hnose).
  unfold RegionTrigger.check_skeleton.
  cbn [RegionTrigger._bodyparts RegionTrigger._region_of_interest
       RegionTrigger._roi_type HeaddirectionTrigger.__init__
       HeaddirectionTrigger._debug HeaddirectionTrigger._point
       HeaddirectionTrigger._angle].
  rewrite Hneck, Hnose. cbn [mbind Outcome_bind Py.bind].
  change (String.eqb "circle" "circle") with true. cbv iota.
  rewrite Hint. cbn [mbind Outcome_bind Py.bind].
  subst result inside true_angle.
  destruct (angle_between_vectors _ _ _ _ _ _) as [dir measured].
  cbn [snd]. now destruct debug.
Qed.

(** A mouse looking at the centre from outside a circle of radius 5. *)
Lemma headdirection_roi_decision_witness :
  exists self,
    HeaddirectionROITrigger.__init__
      (fun c rx ry =>
         RegionTrigger.mkROI (fun _ _ => false) c rx (0, 0, 0, 0)%float)
      (fun c rx ry =>
         RegionTrigger.mkROI (fun _ _ => false) c rx (0, 0, 0, 0)%float)
      (0, 0)%float 5%float 45%float true = Return self
    /\ HeaddirectionROITrigger.check_skeleton
         (fun _ _ _ _ _ _ => ("left"%string, 10%float)) self
         [("neck"%string, (20, 0)%float); ("nose"%string, (10, 0)%float)]
       = Return (true,
                 HeaddirectionROITrigger.PlotTextCircle
                   10%float (10, 0)%float (0, 0)%float 5%float (0, 255, 0)).
Proof.
  exact (headdirection_roi_decision
           (fun _ _ _ _ _ _ => ("left"%string, 10%float))
           (fun c rx ry =>
              RegionTrigger.mkROI (fun _ _ => false) c rx (0, 0, 0, 0)%float)
           (fun c rx ry =>
              RegionTrigger.mkROI (fun _ _ => false) c rx (0, 0, 0, 0)%float)
           (0, 0)%float 5%float 45%float true
           [("neck"%string, (20, 0)%float); ("nose"%string, (10, 0)%float)]
           (20, 0)%float (10, 0)%float 5 eq_refl eq_refl eq_refl).
Defined.

(* ===================================================================== *)
(** * Properties of the social-interaction trigger *)
(* ===================================================================== *)

Section SocialFacts.

Import SocialInteractionTrigger.

Variable calculate_distance : Point -> Point -> float.

Lemma passive_loop_found (self : Trigger) (skeletons : Skeletons)
    (passive : Skeleton) (active_coords : Point)
    (bps : list string) (coords : list Point) :
  getitem skeletons (_passive_animal self) = Return passive ->
  Forall2 (fun bp c => getitem passive bp = Return c) bps coords ->
  passive_loop calculate_distance self skeletons active_coords bps
  = Return (temp_result calculate_distance self active_coords <$> coords).
Proof.
  intros Hanimal Hall. induction Hall as [|bp c bps coords Hbp Hall IH].
  - reflexivity.
  - cbn [passive_loop]. rewrite Hanimal. cbn [mbind Outcome_bind Py.bind].
    rewrite Hbp. cbn [mbind Outcome_bind Py.bind]. rewrite IH. reflexivity.
Qed.

Lemma active_loop_found (self : Trigger) (skeletons : Skeletons)
    (active passive : Skeleton)
    (bps : list string) (coords passive_coords : list Point) :
  getitem skeletons (_active_animal self) = Return active ->
  getitem skeletons (_passive_animal self) = Return passive ->
  Forall2 (fun bp c => getitem active bp = Return c) bps coords ->
  Forall2 (fun bp c => getitem passive bp = Return c)
          (_passive_bp self) passive_coords ->
  active_loop calculate_distance self skeletons bps
  = Return (coords ≫= fun a =>
              temp_result calculate_distance self a <$> passive_coords).
Proof.
  intros Hactive Hpassive Hall Hpall.
  induction Hall as [|bp c bps coords Hbp Hall IH].
  - reflexivity.
  - cbn [active_loop]. rewrite Hactive. cbn [mbind Outcome_bind Py.bind].
    rewrite Hbp. cbn [mbind Outcome_bind Py.bind].
    rewrite (passive_loop_found self skeletons passive c _ _ Hpassive Hpall).
    cbn [mbind Outcome_bind Py.bind]. rewrite IH. reflexivity.
Qed.

Lemma any_bind_fmap {A B} (f : A -> B -> bool) (xs : list A) (ys : list B) :
  RegionTrigger.any (xs ≫= fun a => f a <$> ys)
  = existsb (fun a => existsb (f a) ys) xs.
Proof.
  unfold RegionTrigger.any. induction xs as [|x xs IH]; [reflexivity|].
  cbn [mbind list_bind existsb]. rewrite existsb_app, IH. f_equal.
  clear IH. induction ys as [|y ys IHy]; [reflexivity|].
  cbn [fmap list_fmap existsb]. f_equal. exact IHy.
Qed.

Lemma existsb_pointwise {A} (f g : A -> bool) (l : list A) :
  (forall x, f x = g x) -> existsb f l = existsb g l.
Proof.
  intros Hfg. induction l as [|x l IH]; [reflexivity|].
  cbn. now rewrite Hfg, IH.
Qed.

Lemma temp_result_unknown (self : Trigger) (a p : Point) :
  _interaction_type self <> "distance"%string ->
  _interaction_type self <> "proximity"%string ->
  temp_result calculate_distance self a p = false.
Proof.
  intros Hd Hp. unfold temp_result.
  apply String.eqb_neq in Hd, Hp. rewrite Hd, Hp, !andb_false_r.
  now destruct (negb _).
Qed.

Lemma passive_loop_unknown (self : Trigger) (skeletons : Skeletons)
    (a : Point) (bps : list string) (results : list bool) :
  _interaction_type self <> "distance"%string ->
  _interaction_type self <> "proximity"%string ->
  passive_loop calculate_distance self skeletons a bps = Return results ->
  RegionTrigger.any results = false.
Proof.
  intros Hd Hp. revert results. induction bps as [|bp bps IH]; intros results.
  - now intros [= <-].
  - cbn [passive_loop].
    destruct (getitem skeletons (_passive_animal self)) as [animal|e];
      [|discriminate].
    cbn [mbind Outcome_bind Py.bind].
    destruct (getitem animal bp) as [c|e]; [|discriminate].
    cbn [mbind Outcome_bind Py.bind].
    destruct (passive_loop _ _ _ _ bps) as [rs|e]; [|discriminate].
    cbn [mbind Outcome_bind Py.bind]. intros [= <-].
    unfold RegionTrigger.any in *. cbn.
    now rewrite temp_result_unknown, (IH rs eq_refl).
Qed.

Lemma active_loop_unknown (self : Trigger) (skeletons : Skeletons)
    (bps : list string) (results : list bool) :
  _interaction_type self <> "distance"%string ->
  _interaction_type self <> "proximity"%string ->
  active_loop calculate_distance self skeletons bps = Return results ->
  RegionTrigger.any results = false.
Proof.
  intros Hd Hp. revert results. induction bps as [|bp bps IH]; intros results.
  - now intros [= <-].
  - cbn [active_loop].
    destruct (getitem skeletons (_active_animal self)) as [animal|e];
      [|discriminate].
    cbn [mbind Outcome_bind Py.bind].
    destruct (getitem animal bp) as [c|e]; [|discriminate].
    cbn [mbind Outcome_bind Py.bind].
    destruct (passive_loop _ _ _ _ _) as [rs|e] eqn:Hrs; [|discriminate].
    cbn [mbind Outcome_bind Py.bind].
    destruct (active_loop _ _ _ bps) as [more|e]; [|discriminate].
    cbn [mbind Outcome_bind Py.bind]. intros [= <-].
    unfold RegionTrigger.any in *. rewrite existsb_app.
    rewrite (IH more eq_refl), orb_false_r.
    exact (passive_loop_unknown self skeletons c _ rs Hd Hp Hrs).
Qed.

End SocialFacts.

(** The decision of [SocialInteractionTrigger].  When both animals and
    all listed body parts are in the skeletons, the trigger (without
    debug) fires exactly when some pair of an active and a passive body
    part, none of whose four coordinates is NaN, is at a distance of at
    least the threshold (type ["distance"]) or below it (type
    ["proximity"]). *)
Theorem social_decision_over_pairs
    (calculate_distance : Point -> Point -> float)
    (threshold : float) (active_animal passive_animal : string)
    (active_bp passive_bp : list string) (interaction_type : string)
    (skeletons : SocialInteractionTrigger.Skeletons)
    (active passive : Skeleton) (active_coords passive_coords : list Point) :
  let self :=
    SocialInteractionTrigger.mkTrigger threshold active_animal active_bp
      passive_animal passive_bp interaction_type false in
  getitem skeletons active_animal = Return active ->
  getitem skeletons passive_animal = Return passive ->
  Forall2 (fun bp c => getitem active bp = Return c) active_bp active_coords ->
  Forall2 (fun bp c => getitem passive bp = Return c) passive_bp passive_coords ->
  let result :=
    existsb (fun a =>
      existsb (fun p =>
        negb (SocialInteractionTrigger.any_isnan a p)
        && (PrimFloat.leb threshold (calculate_distance a p)
              && String.eqb interaction_type "distance"
            || PrimFloat.ltb (calculate_distance a p) threshold
               && String.eqb interaction_type "proximity"))
        passive_coords)
      active_coords in
  SocialInteractionTrigger.check_skeleton calculate_distance self skeletons
  = Return (result,
            SocialInteractionTrigger.mkBody
              (SocialInteractionTrigger.mkText interaction_type result)
              (color_of result) None).
Proof.
  intros self Hactive Hpassive Hacoords Hpcoords result.
  unfold SocialInteractionTrigger.check_skeleton.
  change (SocialInteractionTrigger._active_bp self) with active_bp.
  rewrite (active_loop_found calculate_distance self skeletons active passive
             active_bp active_coords passive_coords
             Hactive Hpassive Hacoords Hpcoords).
  cbn [mbind Outcome_bind Py.bind SocialInteractionTrigger._debug self
       SocialInteractionTrigger._interaction_type].
  rewrite any_bind_fmap.
  assert (Hsame : existsb (fun a =>
                    existsb (SocialInteractionTrigger.temp_result
                               calculate_distance self a) passive_coords)
                    active_coords = result).
  { subst result. apply existsb_pointwise. intros a.
    apply existsb_pointwise. intros p.
    unfold SocialInteractionTrigger.temp_result. cbn.
    destruct (negb _); [|reflexivity]. cbn.
    destruct (PrimFloat.leb threshold _ && _); [reflexivity|].
    now destruct (PrimFloat.ltb _ threshold && _). }
  now rewrite Hsame.
Qed.

(** Two animals, nose to nose at distance 3 under a proximity threshold
    of 5; the distance routine here is the difference of the x
    coordinates. *)
Lemma social_decision_over_pairs_witness :
  SocialInteractionTrigger.check_skeleton
    (fun a p => (p.1 - a.1)%float)
    (SocialInteractionTrigger.mkTrigger 5%float "Animal1" ["nose"%string]
       "Animal2" ["nose"%string] "proximity" false)
    [("Animal1"%string, [("nose"%string, (1, 0)%float)]);
     ("Animal2"%string, [("nose"%string, (4, 0)%float)])]
  = Return (true,
            SocialInteractionTrigger.mkBody
              (SocialInteractionTrigger.mkText "proximity" true)
              (0, 255, 0) None).
Proof.
  apply (social_decision_over_pairs
           (fun a p => (p.1 - a.1)%float) 5%float "Animal1" "Animal2"
           ["nose"%string] ["nose"%string] "proximity"
           [("Animal1"%string, [("nose"%string, (1, 0)%float)]);
            ("Animal2"%string, [("nose"%string, (4, 0)%float)])]
           [("nose"%string, (1, 0)%float)] [("nose"%string, (4, 0)%float)]
           [(1, 0)%float] [(4, 0)%float]).
  - reflexivity.
  - reflexivity.
  - repeat constructor.
  - repeat constructor.
Defined.

(** A misspelt interaction type never fires.  With an interaction type
    other than ["distance"] and ["proximity"], every call of
    [SocialInteractionTrigger.check_skeleton] that returns, returns
    [False], whatever the threshold and the positions. *)
Theorem social_unknown_type_never_fires
    (calculate_distance : Point -> Point -> float)
    (self : SocialInteractionTrigger.Trigger)
    (skeletons : SocialInteractionTrigger.Skeletons) :
  SocialInteractionTrigger._interaction_type self <> "distance"%string ->
  SocialInteractionTrigger._interaction_type self <> "proximity"%string ->
  match SocialInteractionTrigger.check_skeleton calculate_distance self skeletons
  with
  | Return (result, _) => result = false
  | Raise _ => True
  end.
Proof.
  intros Hd Hp. unfold SocialInteractionTrigger.check_skeleton.
  destruct (SocialInteractionTrigger.active_loop _ _ _ _) as [results|e] eqn:Hloop;
    [|exact I].
  cbn [mbind Outcome_bind Py.bind].
  rewrite (active_loop_unknown calculate_distance self skeletons _ results
             Hd Hp Hloop).
  repeat match goal with
         | |- context [if ?b then _ else _] => destruct b
         | |- context [mbind _ ?m] =>
             destruct m; cbn [mbind Outcome_bind Py.bind]
         end; try exact I; reflexivity.
Qed.

(** Capitalised ["Proximity"] with the animals one pixel apart. *)
Lemma social_unknown_type_never_fires_witness :
  match SocialInteractionTrigger.check_skeleton
          (fun a p => (p.1 - a.1)%float)
          (SocialInteractionTrigger.mkTrigger 5%float "Animal1" ["nose"%string]
             "Animal2" ["nose"%string] "Proximity" false)
          [("Animal1"%string, [("nose"%string, (1, 0)%float)]);
           ("Animal2"%string, [("nose"%string, (2, 0)%float)])]
  with
  | Return (result, _) => result = false
  | Raise _ => True
  end.
Proof.
  apply (social_unknown_type_never_fires
           (fun a p => (p.1 - a.1)%float)
           (SocialInteractionTrigger.mkTrigger 5%float "Animal1" ["nose"%string]
              "Animal2" ["nose"%string] "Proximity" false)).
  - discriminate.
  - discriminate.
Defined.

(** The debug flag of [SocialInteractionTrigger] never changes a
    decision: whenever the call with [debug] returns, the call without it
    returns the same decision (with the text-only body).  The converse
    fails: the debug branch reads the first body part of each list and
    converts coordinates with [int()]. *)
Theorem social_debug_keeps_decision
    (calculate_distance : Point -> Point -> float)
    (threshold : float) (active_animal passive_animal : string)
    (active_bp passive_bp : list string) (interaction_type : string)
    (skeletons : SocialInteractionTrigger.Skeletons)
    (result : bool) (body : SocialInteractionTrigger.ResponseBody) :
  SocialInteractionTrigger.check_skeleton calculate_distance
    (SocialInteractionTrigger.mkTrigger threshold active_animal active_bp
       passive_animal passive_bp interaction_type true) skeletons
  = Return (result, body) ->
  SocialInteractionTrigger.check_skeleton calculate_distance
    (SocialInteractionTrigger.mkTrigger threshold active_animal active_bp
       passive_animal passive_bp interaction_type false) skeletons
  = Return (result,
            SocialInteractionTrigger.mkBody
              (SocialInteractionTrigger.mkText interaction_type result)
              (color_of result) None).
Proof.
  unfold SocialInteractionTrigger.check_skeleton.
  cbn [SocialInteractionTrigger._debug SocialInteractionTrigger._active_bp
       SocialInteractionTrigger._interaction_type
       SocialInteractionTrigger._active_animal
       SocialInteractionTrigger._passive_animal
       SocialInteractionTrigger._passive_bp].
  assert (Hloop : forall bps,
    SocialInteractionTrigger.active_loop calculate_distance
      (SocialInteractionTrigger.mkTrigger threshold active_animal active_bp
         passive_animal passive_bp interaction_type true) skeletons bps
    = SocialInteractionTrigger.active_loop calculate_distance
        (SocialInteractionTrigger.mkTrigger threshold active_animal active_bp
           passive_animal passive_bp interaction_type false) skeletons bps).
  { assert (Hpassive : forall a bps,
      SocialInteractionTrigger.passive_loop calculate_distance
        (SocialInteractionTrigger.mkTrigger threshold active_animal active_bp
           passive_animal passive_bp interaction_type true) skeletons a bps
      = SocialInteractionTrigger.passive_loop calculate_distance
          (SocialInteractionTrigger.mkTrigger threshold active_animal active_bp
             passive_animal passive_bp interaction_type false) skeletons a bps).
    { intros a bps. induction bps as [|bp bps IH]; [reflexivity|].
      cbn [SocialInteractionTrigger.passive_loop]. now rewrite IH. }
    intros bps. induction bps as [|bp bps IH]; [reflexivity|].
    cbn [SocialInteractionTrigger.active_loop]. rewrite IH.
    cbn [SocialInteractionTrigger._active_animal
         SocialInteractionTrigger._passive_bp].
    destruct (getitem skeletons active_animal) as [animal|e]; [|reflexivity].
    cbn [mbind Outcome_bind Py.bind].
    destruct (getitem animal bp) as [c|e]; [|reflexivity].
    cbn [mbind Outcome_bind Py.bind]. now rewrite Hpassive. }
  rewrite Hloop.
  destruct (SocialInteractionTrigger.active_loop _ _ _ _) as [results|e];
    [|discriminate].
  cbn [mbind Outcome_bind Py.bind].
  repeat match goal with
         | |- context [mbind _ ?m] =>
             destruct m; cbn [mbind Outcome_bind Py.bind]; try discriminate
         | |- context [if ?b then _ else _] => destruct b
         end; intros [= <- _]; reflexivity.
Qed.

(** The debug call on two animals nose to nose returns, with a line. *)
Lemma social_debug_keeps_decision_witness :
  SocialInteractionTrigger.check_skeleton
    (fun a p => (p.1 - a.1)%float)
    (SocialInteractionTrigger.mkTrigger 5%float "Animal1" ["nose"%string]
       "Animal2" ["nose"%string] "proximity" false)
    [("Animal1"%string, [("nose"%string, (1, 0)%float)]);
     ("Animal2"%string, [("nose"%string, (4, 0)%float)])]
  = Return (true,
            SocialInteractionTrigger.mkBody
              (SocialInteractionTrigger.mkText "proximity" true)
              (color_of true) None).
Proof.
  apply (social_debug_keeps_decision
           (fun a p => (p.1 - a.1)%float) 5%float "Animal1" "Animal2"
           ["nose"%string] ["nose"%string] "proximity"
           [("Animal1"%string, [("nose"%string, (1, 0)%float)]);
            ("Animal2"%string, [("nose"%string, (4, 0)%float)])]
           true
           (SocialInteractionTrigger.mkBody
              (SocialInteractionTrigger.mkText "proximity" true)
              (0, 255, 0) (Some ((1, 0), (4, 0))))).
  reflexivity.
Defined.

(* ===================================================================== *)
(** * Properties of the freeze and speed triggers *)
(* ===================================================================== *)

(** Warm-up of [FreezeTrigger] and [SpeedTrigger].  From the second frame
    on, while the deque of travelled distances is not yet full after the
    append (fewer than [timewindow_len] distances recorded), the decision
    is taken on a movement of 0 and not on what the animal did: the
    freeze trigger answers [0 <= threshold] and the speed trigger
    [threshold <= 0], whatever the distance travelled.  The distance is
    recorded and the skeleton remembered. *)
Theorem motion_warm_up_ignores_movement
    (calculate_distance : Point -> Point -> float)
    (np_sum : list float -> float)
    (kind : MotionTrigger.Kind) (self : MotionTrigger.Trigger)
    (skeleton previous : Skeleton) (org_point here there : Point) :
  MotionTrigger._skeleton self = Some previous ->
  MotionTrigger.first_value skeleton = Return org_point ->
  getitem skeleton (MotionTrigger._bodypart self) = Return here ->
  getitem previous (MotionTrigger._bodypart self) = Return there ->
  (length (MotionTrigger._timewindow self) + 1
   < MotionTrigger._timewindow_len self)%nat ->
  let result :=
    match kind with
    | MotionTrigger.Freeze => PrimFloat.leb 0 (MotionTrigger._threshold self)
    | MotionTrigger.Speed => PrimFloat.leb (MotionTrigger._threshold self) 0
    end in
  let call :=
    MotionTrigger.check_skeleton calculate_distance np_sum kind self skeleton in
  (exists body, call.1 = Return (result, body))
  /\ MotionTrigger._timewindow call.2
     = MotionTrigger._timewindow self ++ [calculate_distance here there]
  /\ MotionTrigger._skeleton call.2 = Some skeleton.
Proof.
  intros Hprev Horg Hhere Hthere Hshort result call. subst call result.
  unfold MotionTrigger.check_skeleton.
  rewrite Horg, Hprev, Hhere, Hthere.
  assert (Hwindow :
    deque_append (MotionTrigger._timewindow_len self)
      (MotionTrigger._timewindow self) (calculate_distance here there)
    = MotionTrigger._timewindow self ++ [calculate_distance here there]).
  { unfold deque_append. rewrite length_app. cbn [length].
    replace (_ - _)%nat with 0%nat by lia. apply drop_0. }
  rewrite Hwindow.
  assert (Hlen : (length (MotionTrigger._timewindow self
                            ++ [calculate_distance here there])
                  =? MotionTrigger._timewindow_len self)%nat = false).
  { apply Nat.eqb_neq. rewrite length_app. cbn [length]. lia. }
  rewrite Hlen. unfold MotionTrigger.decide_motion.
  change (PrimFloat.abs 0) with 0%float.
  destruct kind;
    match goal with |- context [PrimFloat.leb ?a ?b] =>
      destruct (PrimFloat.leb a b) end;
    cbn; (split; [eexists; reflexivity | split; reflexivity]).
Qed.

(** The second frame of a freeze trigger with the default window of two
    distances: the animal has jumped by 100 pixels and the trigger
    reports freezing. *)
Lemma motion_warm_up_ignores_movement_witness :
  let call :=
    FreezeTrigger.check_skeleton (fun a b => (a.1 - b.1)%float) (fun _ => 100%float)
      (MotionTrigger.mkTrigger "nose" 5%float 2 []
         (Some [("nose"%string, (0, 0)%float)]) false)
      [("nose"%string, (100, 0)%float)] in
  (exists body, call.1 = Return (true, body))
  /\ MotionTrigger._timewindow call.2 = [] ++ [100%float]
  /\ MotionTrigger._skeleton call.2 = Some [("nose"%string, (100, 0)%float)].
Proof.
  apply (motion_warm_up_ignores_movement
           (fun a b => (a.1 - b.1)%float) (fun _ => 100%float)
           MotionTrigger.Freeze
           (MotionTrigger.mkTrigger "nose" 5%float 2 []
              (Some [("nose"%string, (0, 0)%float)]) false)
           [("nose"%string, (100, 0)%float)]
           [("nose"%string, (0, 0)%float)]
           (100, 0)%float (100, 0)%float (0, 0)%float).
  - reflexivity.
  - reflexivity.
  - reflexivity.
  - reflexivity.
  - cbn. repeat constructor.
Defined.

(** What a call of [FreezeTrigger] or [SpeedTrigger] does to the
    attributes.  A call that raises (empty skeleton, or the body part
    missing from the new or from the remembered skeleton) leaves every
    attribute as it was, so the next frame is compared with the same
    remembered skeleton.  A call that returns remembers the new skeleton,
    keeps the configuration, and keeps the deque within its bound.  The
    first call returns [False] for any non-empty skeleton, even one
    without the configured body part. *)
Theorem motion_call_effects
    (calculate_distance : Point -> Point -> float)
    (np_sum : list float -> float)
    (kind : MotionTrigger.Kind) (self : MotionTrigger.Trigger)
    (skeleton : Skeleton) :
  let call :=
    MotionTrigger.check_skeleton calculate_distance np_sum kind self skeleton in
  match call.1 with
  | Raise e =>
      call.2 = self
      /\ (e = IndexError
          \/ e = KeyError (MotionTrigger._bodypart self))
  | Return (result, body) =>
      MotionTrigger._skeleton call.2 = Some skeleton
      /\ MotionTrigger._bodypart call.2 = MotionTrigger._bodypart self
      /\ MotionTrigger._threshold call.2 = MotionTrigger._threshold self
      /\ MotionTrigger._timewindow_len call.2 = MotionTrigger._timewindow_len self
      /\ (length (MotionTrigger._timewindow call.2)
          <= max (MotionTrigger._timewindow_len self)
                 (length (MotionTrigger._timewindow self)))%nat
      /\ (MotionTrigger._skeleton self = None ->
          result = false /\ MotionTrigger.text body = MotionTrigger.Dots
          /\ MotionTrigger._timewindow call.2 = MotionTrigger._timewindow self)
  end.
Proof.
  cbv zeta. unfold MotionTrigger.check_skeleton, MotionTrigger.first_value.
  destruct skeleton as [|[k v] skeleton]; [cbn; split; [reflexivity | now left]|].
  cbn [first mbind Outcome_bind Py.bind snd].
  destruct (MotionTrigger._skeleton self) as [previous|] eqn:Hprev.
  - destruct (getitem ((k, v) :: skeleton) (MotionTrigger._bodypart self))
      as [here|e] eqn:Hhere.
    + destruct (getitem previous (MotionTrigger._bodypart self))
        as [there|e] eqn:Hthere.
      * destruct (MotionTrigger.decide_motion _ _ _) as [result text].
        cbn. repeat split; try discriminate.
        unfold deque_append. rewrite length_drop, length_app. cbn [length]. lia.
      * cbn. split; [reflexivity|]. right. exact (getitem_raises _ _ _ Hthere).
    + cbn. split; [reflexivity|]. right. exact (getitem_raises _ _ _ Hhere).
  - cbn. repeat split; try lia. 
Qed.

(* ===================================================================== *)
(** * Properties of the LED stimulus *)
(* ===================================================================== *)

Section LEDFacts.

Import LEDstim.

Lemma call_step (self : LEDstim.LEDstim) (c : Call) :
  exists byte,
    (byte = "H"%string \/ byte = "L"%string)
    /\ ser (call self c) = ser self ++ [byte]
    /\ on (call self c) = bool_decide (byte = "H"%string)
    /\ off (call self c) = off self.
Proof.
  destruct c; cbn [call].
  - exists "H"%string. now repeat split; try left.
  - exists "L"%string. now repeat split; try right.
  - unfold toggle. destruct (on self).
    + exists "L"%string. now repeat split; try right.
    + exists "H"%string. now repeat split; try left.
Qed.

End LEDFacts.

(** The [on] attribute mirrors the serial line.  After any sequence of
    [LEDon], [LEDoff] and [toggle] calls on a new [LEDstim], every call
    has written exactly one byte, each ['H'] or ['L'], and [on] is true
    exactly when the last byte written is ['H'] (false when nothing was
    written).  The [off] attribute is never updated: it is [True]
    throughout, also while the LED is on. *)
Theorem led_on_mirrors_serial (calls : list LEDstim.Call) :
  let self := foldl LEDstim.call LEDstim.__init__ calls in
  length (LEDstim.ser self) = length calls
  /\ Forall (fun byte => byte = "H"%string \/ byte = "L"%string)
            (LEDstim.ser self)
  /\ LEDstim.on self = bool_decide (last (LEDstim.ser self) = Some "H"%string)
  /\ LEDstim.off self = true.
Proof.
  induction calls as [|c calls IH] using rev_ind.
  - cbn. repeat split. constructor.
  - cbv zeta in IH |- *. rewrite foldl_snoc.
    destruct IH as (Hlen & Hbytes & _ & Hoff).
    destruct (call_step (foldl LEDstim.call LEDstim.__init__ calls) c)
      as (byte & Hbyte & -> & -> & ->).
    rewrite !length_app, Hlen, last_snoc. cbn [length].
    split; [reflexivity|]. split; [|split; [|exact Hoff]].
    + apply Forall_app. split; [exact Hbytes|]. now constructor.
    + apply bool_decide_ext. split; [now intros -> | now intros [= ->]].
Qed.

(* ===================================================================== *)
(** * Properties of the single classifier process *)
(* ===================================================================== *)

Section ClassifierProcessFacts.

Import ClassifierProcess.

Context {F R : Type}.
Variable classify : F -> R.

Lemma handle_status (self : ClassifierProcess.ClassifierProcess F R)
    (e : Event F) :
  (_running self = true -> (1 <= load self)%nat) ->
  _running (handle classify self e) = true ->
  (1 <= load (handle classify self e))%nat.
Proof.
  destruct self as [i wr o w r], e as [features | | |]; unfold load; cbn.
  - destruct i, wr; cbn; intros Hinv Hrun; try (specialize (Hinv Hrun));
      cbn in *; lia.
  - destruct o; cbn; [discriminate|]. exact (fun H => H).
  - destruct w as [held|], i, o; cbn; intros Hinv Hrun;
      try (specialize (Hinv Hrun)); cbn in *; lia.
  - destruct i; cbn; intros Hinv Hrun; try (specialize (Hinv Hrun));
      cbn in *; lia.
Qed.

End ClassifierProcessFacts.

(** [ClassifierProcess.get_status] is a sound busy indicator but not a
    complete one.  After any sequence of [pass_features] calls,
    [get_result] calls, worker quanta and writes of the feeder thread on
    a new process: when the
    status is [True], there is work inside (in the input queue, with the
    worker, or in the output queue).  The converse fails: after two
    feature sets were passed and one result collected, the status is
    [False] while the second set is still being worked on. *)
Theorem classifier_process_status_sound {F R : Type} (classify : F -> R)
    (events : list (ClassifierProcess.Event F)) :
  let self :=
    foldl (ClassifierProcess.handle classify)
          (@ClassifierProcess.__init__ F R) events in
  (ClassifierProcess.get_status self = true
   -> (1 <= ClassifierProcess.load self)%nat)
  /\ forall f1 f2 : F,
       let busy :=
         foldl (ClassifierProcess.handle classify)
               (@ClassifierProcess.__init__ F R)
               [ClassifierProcess.PassFeatures f1; ClassifierProcess.Quantum;
                ClassifierProcess.PassFeatures f2; ClassifierProcess.Quantum;
                ClassifierProcess.GetResult] in
       ClassifierProcess.get_status busy = false
       /\ ClassifierProcess.load busy = 1%nat.
Proof.
  cbv zeta. split; [|intros f1 f2; split; reflexivity].
  unfold ClassifierProcess.get_status.
  induction events as [|e events IH] using rev_ind; [discriminate|].
  rewrite foldl_snoc. now apply handle_status.
Qed.


